(** * vk_executor: manifest validation, planning, execution and reporting

    A shallow embedding of [src/vk_executor.py] and of [main] in
    [src/entrypoint.py], from the task data to the naming of the report,
    together with the properties its specification states about it.

    Python values are JSON values: the manifest comes from [json.loads], and
    everything the program builds from it is made of dict and list literals.
    Exceptions are explicit: a function that can raise returns a [result],
    and a method of the client returns a [result] together with the client's
    new state.

    What is left to parameters, because it belongs to Python or to the remote
    side and not to this program: the order in which a set is visited
    ([key_order]), the [repr] of lists and dicts, [str.upper] and
    [str.lower] beyond ASCII, the current time, and the server process with
    its pipes, [json.dumps] and [json.loads] under the transport
    [_call_tool]. *)

From stdpp Require Import gmap strings list pretty sorting.

Open Scope string_scope.
Open Scope list_scope.
Open Scope Z_scope.

(** ** Python values *)

Module Py.

(** The hashable JSON values.  Numbers are the integers: a manifest holding a
    float is outside this model.  A [str] is a sequence of characters, one
    [ascii] per code point, so only code points below 256 are represented. *)
Inductive scalar :=
| SNone
| SBool (b : bool)
| SInt (n : Z)
| SStr (s : string).

#[warnings="-register-all"]
Inductive json :=
| JScalar (a : scalar)
| JList (l : list json)
| JDict (d : list (string * json)).

Abbreviation JNone := (JScalar SNone).
Abbreviation JBool b := (JScalar (SBool b)).
Abbreviation JInt n := (JScalar (SInt n)).
Abbreviation JStr s := (JScalar (SStr s)).

(** A [dict] with [str] keys, in insertion order. *)
Abbreviation dict := (list (string * json)).

(** An exception: its class and [str(e)]. *)
Record exn := Exn { exn_class : string; exn_str : string }.

Inductive result (A : Type) :=
| Ok (a : A)
| Raise (e : exn).
Arguments Ok {A} a.
Arguments Raise {A} e.

#[global] Instance result_ret : MRet result := @Ok.
#[global] Instance result_bind : MBind result := λ A B f m,
  match m with Ok a => f a | Raise e => Raise e end.

Definition is_Ok {A} (r : result A) : Prop :=
  match r with Ok _ => True | Raise _ => False end.

(** [type(v).__name__] *)
Definition type_name (v : json) : string :=
  match v with
  | JNone => "NoneType"
  | JBool _ => "bool"
  | JInt _ => "int"
  | JStr _ => "str"
  | JList _ => "list"
  | JDict _ => "dict"
  end.

(** [str(a)], as an f-string formats a scalar. *)
Definition scalar_str (a : scalar) : string :=
  match a with
  | SNone => "None"
  | SBool true => "True"
  | SBool false => "False"
  | SInt n => pretty n
  | SStr s => s
  end.

(** [bool(v)] *)
Definition truthy (v : json) : bool :=
  match v with
  | JNone => false
  | JBool b => b
  | JInt n => negb (n =? 0)
  | JStr s => negb (bool_decide (s = ""))
  | JList l => match l with [] => false | _ => true end
  | JDict d => match d with [] => false | _ => true end
  end.

(** [v == s] for a [str] literal [s] *)
Definition eq_str (v : json) (s : string) : bool :=
  match v with
  | JStr s' => bool_decide (s' = s)
  | _ => false
  end.

(** [k in d] and [d.get(k)] on a dict *)
Fixpoint dict_lookup (k : string) (d : dict) : option json :=
  match d with
  | [] => None
  | (k', v) :: d' => if decide (k' = k) then Some v else dict_lookup k d'
  end.

Definition dict_has (k : string) (d : dict) : bool :=
  match dict_lookup k d with Some _ => true | None => false end.

(** [d.get(k, default)] on a dict *)
Definition dict_get (k : string) (default : json) (d : dict) : json :=
  match dict_lookup k d with Some v => v | None => default end.

(** [d[k] = v]: an existing key keeps its place, a new one goes last. *)
Fixpoint dict_set (k : string) (v : json) (d : dict) : dict :=
  match d with
  | [] => [(k, v)]
  | (k', v') :: d' =>
      if decide (k' = k) then (k, v) :: d' else (k', v') :: dict_set k v d'
  end.

Definition KeyError (k : string) : exn := Exn "KeyError" ("'" +:+ k +:+ "'").

Definition no_attribute (v : json) (attr : string) : exn :=
  Exn "AttributeError"
      ("'" +:+ type_name v +:+ "' object has no attribute '" +:+ attr +:+ "'").

Definition not_subscriptable (v : json) : exn :=
  Exn "TypeError"
      match v with
      | JList _ => "list indices must be integers or slices, not str"
      | JStr _ => "string indices must be integers, not 'str'"
      | _ => "'" +:+ type_name v +:+ "' object is not subscriptable"
      end.

Definition not_iterable (v : json) : exn :=
  Exn "TypeError" ("'" +:+ type_name v +:+ "' object is not iterable").

Definition unhashable (v : json) : exn :=
  Exn "TypeError" ("unhashable type: '" +:+ type_name v +:+ "'").

(** [v[k]] with a [str] key [k] *)
Definition getitem (v : json) (k : string) : result json :=
  match v with
  | JDict d =>
      match dict_lookup k d with Some x => Ok x | None => Raise (KeyError k) end
  | _ => Raise (not_subscriptable v)
  end.

(** [v.get(k, default)] *)
Definition get (v : json) (k : string) (default : json) : result json :=
  match v with
  | JDict d => Ok (dict_get k default d)
  | _ => Raise (no_attribute v "get")
  end.

(** The characters of a [str], each as a [str] of length one. *)
Fixpoint chars (s : string) : list json :=
  match s with
  | EmptyString => []
  | String c s' => JStr (String c EmptyString) :: chars s'
  end.

(** [for x in v]: the items a loop over [v] visits. *)
Definition iter (v : json) : result (list json) :=
  match v with
  | JList l => Ok l
  | JStr s => Ok (chars s)
  | JDict d => Ok ((λ k, JStr k) <$> d.*1)
  | _ => Raise (not_iterable v)
  end.

(** [hash(v)]: lists and dicts have none. *)
Definition hashable (v : json) : result scalar :=
  match v with
  | JScalar a => Ok a
  | _ => Raise (unhashable v)
  end.

(** [a in S] for a set [S] of [str] *)
Definition in_str_set (a : scalar) (S : gset string) : bool :=
  match a with
  | SStr s => bool_decide (s ∈ S)
  | _ => false
  end.

(** [sep.join(l)] *)
Fixpoint join (sep : string) (l : list string) : string :=
  match l with
  | [] => ""
  | [s] => s
  | s :: l' => s +:+ sep +:+ join sep l'
  end.

(** [sorted(S)] for a set of [str]: ascending code points. *)
Definition sorted (S : gset string) : list string :=
  merge_sort (λ a b : string, String.leb a b) (elements S).

(** [sum(1 for x in l if p(x))], where [p] can raise *)
Fixpoint count_where (p : json → result bool) (l : list json) : result Z :=
  match l with
  | [] => Ok 0
  | x :: l' =>
      b ← p x;
      n ← count_where p l';
      Ok ((if b : bool then 1 else 0) + n)
  end.

(** A [for] loop whose body updates the loop state [s] and can raise. *)
Fixpoint for_each {A S : Type} (body : A → S → result S) (l : list A) (s : S)
  : result S :=
  match l with
  | [] => Ok s
  | x :: l' => s' ← body x s; for_each body l' s'
  end.

(** [[f(x) for x in l]], where [f] can raise *)
Fixpoint map_each {A B : Type} (f : A → result B) (l : list A) : result (list B) :=
  match l with
  | [] => Ok []
  | x :: l' => y ← f x; ys ← map_each f l'; Ok (y :: ys)
  end.

(** [[x for x in l if p(x)]], where [p] can raise *)
Fixpoint filter_where (p : json → result bool) (l : list json)
  : result (list json) :=
  match l with
  | [] => Ok []
  | x :: l' =>
      b ← p x;
      xs ← filter_where p l';
      Ok (if b : bool then x :: xs else xs)
  end.

(** [len(v)] *)
Definition len (v : json) : result Z :=
  match v with
  | JList l => Ok (Z.of_nat (length l))
  | JStr s => Ok (Z.of_nat (String.length s))
  | JDict d => Ok (Z.of_nat (length d))
  | _ => Raise (Exn "TypeError"
                    ("object of type '" +:+ type_name v +:+ "' has no len()"))
  end.

(** Keys of a Python dict: scalars up to [==], under which [True] is [1] and
    [False] is [0]. *)
Definition dict_key (a : scalar) : scalar :=
  match a with
  | SBool true => SInt 1
  | SBool false => SInt 0
  | _ => a
  end.

#[global] Instance scalar_eq_dec : EqDecision scalar.
Proof. solve_decision. Defined.

#[global] Instance scalar_countable : Countable scalar.
Proof.
  refine (inj_countable'
    (λ a, match a with
          | SNone => inl ()
          | SBool b => inr (inl b)
          | SInt n => inr (inr (inl n))
          | SStr s => inr (inr (inr s))
          end)
    (λ x, match x with
          | inl () => SNone
          | inr (inl b) => SBool b
          | inr (inr (inl n)) => SInt n
          | inr (inr (inr s)) => SStr s
          end) _).
  by intros [].
Defined.

(** The key under which a dict files [v]; lists and dicts cannot be keys. *)
Definition hash_key (v : json) : result scalar :=
  a ← hashable v; Ok (dict_key a).

(** [str.upper] on text that is ASCII only: [a]-[z] become [A]-[Z]. *)
Definition upper_char (c : Ascii.ascii) : Ascii.ascii :=
  let n := Ascii.nat_of_ascii c in
  if ((97 <=? n) && (n <=? 122))%nat then Ascii.ascii_of_nat (n - 32) else c.

Fixpoint ascii_upper (s : string) : string :=
  match s with
  | EmptyString => EmptyString
  | String c s' => String (upper_char c) (ascii_upper s')
  end.

Fixpoint is_ascii (s : string) : bool :=
  match s with
  | EmptyString => true
  | String c s' => (Ascii.nat_of_ascii c <? 128)%nat && is_ascii s'
  end.

End Py.
Export Py.

(** ** Constants *)

Definition VALID_EXECUTORS : gset string :=
  {[ "claude-code"; "codex"; "gemini"; "amp"; "copilot";
     "cursor_agent"; "qwen-code"; "droid"; "opencode" ]}.

Definition VALID_PRIORITIES : gset string :=
  {[ "Urgent"; "High"; "Medium"; "Low" ]}.

(** [REQUIRED_MANIFEST_KEYS] is a set; the order in which a loop visits it is
    not fixed by the language.  A [key_order] picks one of the six. *)
Inductive key_order := VTP | VPT | TVP | TPV | PVT | PTV.

Definition REQUIRED_MANIFEST_KEYS (o : key_order) : list string :=
  match o with
  | VTP => ["version"; "tasks"; "project"]
  | VPT => ["version"; "project"; "tasks"]
  | TVP => ["tasks"; "version"; "project"]
  | TPV => ["tasks"; "project"; "version"]
  | PVT => ["project"; "version"; "tasks"]
  | PTV => ["project"; "tasks"; "version"]
  end.

(** ** Load & Validate *)

Module Validator.

Definition missing_key_msg (key : string) : string :=
  "Missing required key: '" +:+ key +:+ "'".

Definition not_a_dict_msg (i : nat) : string :=
  "Task " +:+ pretty i +:+ " is not a dict".

Definition missing_title_msg (i : nat) : string :=
  "Task " +:+ pretty i +:+ " missing required key: 'title'".

Definition invalid_executor_msg (i : nat) (a : scalar) : string :=
  "Task " +:+ pretty i +:+ " has invalid executor: '" +:+ scalar_str a +:+ "'. "
  +:+ "Must be one of: " +:+ join ", " (sorted VALID_EXECUTORS).

Definition invalid_priority_msg (i : nat) (a : scalar) : string :=
  "Task " +:+ pretty i +:+ " has invalid priority: '" +:+ scalar_str a +:+ "'. "
  +:+ "Must be one of: " +:+ join ", " (sorted VALID_PRIORITIES).

(** The loop over [REQUIRED_MANIFEST_KEYS]. *)
Definition check_required (keys : list string) (manifest : dict) : list string :=
  missing_key_msg <$> filter (λ key, dict_has key manifest = false) keys.

(** [if key in task and task[key] not in allowed: errors.append(msg)].
    The membership test hashes the value, which raises on a list or a dict. *)
Definition check_member (key : string) (allowed : gset string)
    (msg : scalar → string) (task : dict) (errors : list string)
  : result (list string) :=
  match dict_lookup key task with
  | None => Ok errors
  | Some v =>
      a ← hashable v;
      if in_str_set a allowed then Ok errors else Ok (errors ++ [msg a])
  end.

(** The body of [for i, task in enumerate(tasks)]. *)
Definition check_task (i : nat) (task : json) (errors : list string)
  : result (list string) :=
  match task with
  | JDict d =>
      let errors :=
        if dict_has "title" d then errors else errors ++ [missing_title_msg i] in
      errors ← check_member "executor" VALID_EXECUTORS
                            (invalid_executor_msg i) d errors;
      check_member "priority" VALID_PRIORITIES (invalid_priority_msg i) d errors
  | _ => Ok (errors ++ [not_a_dict_msg i])
  end.

Fixpoint check_tasks (i : nat) (tasks : list json) (errors : list string)
  : result (list string) :=
  match tasks with
  | [] => Ok errors
  | task :: rest =>
      errors ← check_task i task errors;
      check_tasks (S i) rest errors
  end.

Definition validate_manifest (o : key_order) (manifest : dict)
  : result (list string) :=
  let errors := check_required (REQUIRED_MANIFEST_KEYS o) manifest in
  match dict_lookup "tasks" manifest with
  | None => Ok errors
  | Some (JList []) => Ok (errors ++ ["No tasks found -- tasks list is empty"])
  | Some (JList tasks) => check_tasks 0%nat tasks errors
  | Some _ => Ok (errors ++ ["'tasks' must be a list"])
  end.

End Validator.
Export Validator.

(** ** Plan Execution *)

Module Planner.
Section Planner.

(** [repr] of a list or a dict, which an f-string prints for a title that is
    not a scalar.  Its text is Python's business; the planner only embeds it. *)
Variable container_repr : json → string.

(** [f"{v}"] *)
Definition format (v : json) : string :=
  match v with
  | JScalar a => scalar_str a
  | _ => container_repr v
  end.

Definition create_task_step (title description priority tags parent_title : json)
  : json :=
  JDict [("action", JStr "create_task"); ("title", title);
         ("description", description); ("priority", priority);
         ("tags", tags); ("parent_title", parent_title)].

Definition start_workspace_step (title executor repo base_branch : json) : json :=
  JDict [("action", JStr "start_workspace"); ("title", title);
         ("executor", executor); ("repo", repo); ("base_branch", base_branch)].

(** [sub if isinstance(sub, str) else sub.get("title", "")] *)
Definition subtask_title (sub : json) : result json :=
  match sub with
  | JStr _ => Ok sub
  | _ => get sub "title" (JStr "")
  end.

(** The body of [for sub in task.get("subtasks", [])]; the loop state is
    [(steps, total_subtasks)]. *)
Definition plan_subtask (task sub : json) (acc : list json * Z)
  : result (list json * Z) :=
  let '(steps, total_subtasks) := acc in
  let total_subtasks := total_subtasks + 1 in
  sub_title ← subtask_title sub;
  title ← getitem task "title";
  priority ← get task "priority" (JStr "Medium");
  tags ← get task "tags" (JList []);
  parent_title ← getitem task "title";
  Ok (steps ++ [create_task_step sub_title
                  (JStr ("Subtask of: " +:+ format title))
                  priority tags parent_title],
      total_subtasks).

(** The body of [for task in tasks]. *)
Definition plan_task (default_executor default_repo default_branch task : json)
    (acc : list json * Z) : result (list json * Z) :=
  let '(steps, total_subtasks) := acc in
  executor ← get task "executor" default_executor;
  repo ← get task "repo" default_repo;
  branch ← get task "base_branch" default_branch;
  title ← getitem task "title";
  description ← get task "description" (JStr "");
  priority ← get task "priority" (JStr "Medium");
  tags ← get task "tags" (JList []);
  let steps := steps ++ [create_task_step title description priority tags JNone] in
  title ← getitem task "title";
  let steps := steps ++ [start_workspace_step title executor repo branch] in
  subtasks ← get task "subtasks" (JList []);
  subs ← iter subtasks;
  for_each (plan_subtask task) subs (steps, total_subtasks).

Definition plan_execution (manifest : dict) : result json :=
  let tasks := dict_get "tasks" (JList []) manifest in
  let defaults := dict_get "defaults" (JDict []) manifest in
  default_executor ← get defaults "executor" (JStr "claude-code");
  default_repo ← get defaults "repo" (JStr "");
  default_branch ← get defaults "base_branch" (JStr "main");
  task_list ← iter tasks;
  '(steps, total_subtasks) ←
    for_each (plan_task default_executor default_repo default_branch)
             task_list ([], 0);
  total_tasks ← len tasks;
  workspaces ←
    filter_where (λ s, a ← getitem s "action"; Ok (eq_str a "start_workspace"))
                 steps;
  let total_workspaces := Z.of_nat (length workspaces) in
  Ok (JDict [("steps", JList steps);
             ("summary", JDict [("total_tasks", JInt total_tasks);
                                ("total_subtasks", JInt total_subtasks);
                                ("total_workspaces", JInt total_workspaces)])]).

End Planner.
End Planner.
Export Planner.

(** ** Execute Plan *)

Module Executor.

(** What [execute_plan] asks of its client: two methods, each of which either
    returns a value or raises an [Exception], and may change the client (a
    connection, a mock's call record) in doing so. *)
Record Client (C : Type) := {
  create_task : json → json → json → C → result json * C;
  start_workspace : json → json → json → json → json → C → result json * C;
}.
Arguments create_task {C} _ _ _ _ _.
Arguments start_workspace {C} _ _ _ _ _ _ _.

Section Executor.
Context {C : Type} (client : Client C).

(** The state of the loop: [results], [title_to_task_id] and the client. *)
Record exec_state := {
  results : list json;
  title_to_task_id : gmap scalar json;
  conn : C;
}.

(** The [try] block of the [create_task] branch: the updated table and the
    result to append, or the exception it stopped at. *)
Definition try_create_task (project_id action step : json)
    (table : gmap scalar json) (c : C)
  : result (gmap scalar json * json) * C :=
  match getitem step "title" with
  | Raise e => (Raise e, c)
  | Ok title =>
      match getitem step "description" with
      | Raise e => (Raise e, c)
      | Ok description =>
          let '(r, c') := create_task client project_id title description c in
          (resp ← r;
           id ← get resp "id" (JStr "");
           task_id ← get resp "issue_id" id;
           key ← hash_key title;
           Ok (<[key := task_id]> table,
               JDict [("action", action); ("title", title);
                      ("status", JStr "success"); ("task_id", task_id);
                      ("detail", resp)]),
           c')
      end
  end.

(** The [try] block of the [start_workspace] branch. *)
Definition try_start_workspace (action step task_id : json) (c : C)
  : result json * C :=
  match getitem step "title" with
  | Raise e => (Raise e, c)
  | Ok title =>
      match getitem step "executor" with
      | Raise e => (Raise e, c)
      | Ok executor =>
          match get step "repo" (JStr "") with
          | Raise e => (Raise e, c)
          | Ok repo =>
              match get step "base_branch" (JStr "main") with
              | Raise e => (Raise e, c)
              | Ok base_branch =>
                  let '(r, c') :=
                    start_workspace client task_id title executor repo
                                    base_branch c in
                  (resp ← r;
                   workspace_id ← get resp "workspace_id" (JStr "");
                   Ok (JDict [("action", action); ("title", title);
                              ("status", JStr "success"); ("task_id", task_id);
                              ("workspace_id", workspace_id);
                              ("executor", executor); ("detail", resp)]),
                   c')
              end
          end
      end
  end.

(** The [except Exception as e] handler, the same in both branches. *)
Definition error_result (action step : json) (e : exn) : result json :=
  title ← getitem step "title";
  Ok (JDict [("action", action); ("title", title);
             ("status", JStr "error"); ("error", JStr (exn_str e))]).

(** The body of [for step in plan["steps"]]. *)
Definition exec_step (project_id step : json) (st : exec_state)
  : result exec_state :=
  action ← getitem step "action";
  if eq_str action "create_task" then
    let '(r, c') :=
      try_create_task project_id action step (title_to_task_id st) (conn st) in
    match r with
    | Ok (table', res) =>
        Ok {| results := results st ++ [res];
              title_to_task_id := table'; conn := c' |}
    | Raise e =>
        res ← error_result action step e;
        Ok {| results := results st ++ [res];
              title_to_task_id := title_to_task_id st; conn := c' |}
    end
  else if eq_str action "start_workspace" then
    title ← getitem step "title";
    key ← hash_key title;
    let task_id := default (JStr "") (title_to_task_id st !! key) in
    let '(r, c') := try_start_workspace action step task_id (conn st) in
    match r with
    | Ok res =>
        Ok {| results := results st ++ [res];
              title_to_task_id := title_to_task_id st; conn := c' |}
    | Raise e =>
        res ← error_result action step e;
        Ok {| results := results st ++ [res];
              title_to_task_id := title_to_task_id st; conn := c' |}
    end
  else Ok st.

Definition initial_state (c : C) : exec_state :=
  {| results := []; title_to_task_id := ∅; conn := c |}.

(** Returns [results], and the client as the run left it. *)
Definition execute_plan (plan project_id : json) (c : C)
  : result (list json * C) :=
  steps ← getitem plan "steps";
  steps ← iter steps;
  st ← for_each (exec_step project_id) steps (initial_state c);
  Ok (results st, conn st).

End Executor.

(** A client that keeps a record of the calls made to it, as the test suite's
    [MagicMock] does. *)
Inductive call :=
| create_task_call (project_id title description : json)
| start_workspace_call (task_id title executor repo_id base_branch : json).

Definition recording {C : Type} (client : Client C) : Client (C * list call) :=
  {| create_task project_id title description '(c, log) :=
       let '(r, c') := create_task client project_id title description c in
       (r, (c', log ++ [create_task_call project_id title description]));
     start_workspace task_id title executor repo_id base_branch '(c, log) :=
       let '(r, c') :=
         start_workspace client task_id title executor repo_id base_branch c in
       (r, (c', log ++ [start_workspace_call task_id title executor repo_id
                                             base_branch])) |}.

End Executor.
Export Executor.

(** ** Execution Report *)

Module Reporter.

(** [r["status"] == status] *)
Definition has_status (status : string) (r : json) : result bool :=
  s ← getitem r "status"; Ok (eq_str s status).

(** [now] stands for [datetime.now(timezone.utc).isoformat()]. *)
Definition build_execution_report (now : string) (manifest : dict)
    (plan : json) (results : list json) (project_id : json) : result json :=
  succeeded ← count_where (has_status "success") results;
  failed ← count_where (has_status "error") results;
  summary ← getitem plan "summary";
  total_tasks ← getitem summary "total_tasks";
  summary ← getitem plan "summary";
  total_workspaces ← getitem summary "total_workspaces";
  Ok (JDict [("project", dict_get "project" (JStr "") manifest);
             ("project_id", project_id);
             ("executed_at", JStr now);
             ("source", dict_get "source" (JDict []) manifest);
             ("summary",
              JDict [("total_steps", JInt (Z.of_nat (length results)));
                     ("succeeded", JInt succeeded);
                     ("failed", JInt failed);
                     ("total_tasks", total_tasks);
                     ("total_workspaces", total_workspaces)]);
             ("results", JList results)]).

(** The [dry_run] branch of [main] in [entrypoint.py]: no step is executed,
    each is reported as skipped. *)
Definition dry_run_results (plan : json) : result (list json) :=
  steps ← getitem plan "steps";
  steps ← iter steps;
  map_each (λ s,
              action ← getitem s "action";
              title ← getitem s "title";
              Ok (JDict [("action", action); ("title", title);
                         ("status", JStr "skipped")]))
           steps.

End Reporter.
Export Reporter.

(** ** MCP Client *)

Module VKMcpClient.
Section VKMcpClient.

(** [_call_tool] is the transport: it sends one JSON-RPC request to the MCP
    server and returns the decoded answer or raises.  [T] is the state of the
    connection. *)
Context {T : Type}.
Variable _call_tool : string → json → T → result json * T.

(** [str.upper].  On ASCII text it is [ascii_upper]; elsewhere it follows the
    Unicode tables, which are not modelled. *)
Variable str_upper : string → string.

(** [executor.upper()] *)
Definition upper (v : json) : result json :=
  match v with
  | JStr s => Ok (JStr (str_upper s))
  | _ => Raise (no_attribute v "upper")
  end.

Definition create_task (project_id title description : json)
  : T → result json * T :=
  _call_tool "create_issue"
    (JDict [("project_id", project_id); ("title", title);
            ("description", description)]).

(** The [args] dict of [start_workspace]. *)
Definition start_workspace_args (task_id title executor repo_id base_branch : json)
  : result dict :=
  executor ← upper executor;
  let args :=
    [("title", title);
     ("executor", executor);
     ("repos", if truthy repo_id
               then JList [JDict [("repo_id", repo_id);
                                  ("base_branch", base_branch)]]
               else JList [])] in
  Ok (if truthy task_id then dict_set "issue_id" task_id args else args).

Definition start_workspace (task_id title executor repo_id base_branch : json)
    (t : T) : result json * T :=
  match start_workspace_args task_id title executor repo_id base_branch with
  | Raise e => (Raise e, t)
  | Ok args => _call_tool "start_workspace_session" (JDict args) t
  end.

Definition client : Client T :=
  {| Executor.create_task := create_task;
     Executor.start_workspace := start_workspace |}.

End VKMcpClient.
End VKMcpClient.

(** ** MCP Client: the transport *)

Module Transport.

(** Code that changes a state [S] and can raise: the state it leaves behind
    is there also when it raises. *)
Definition io (S A : Type) : Type := S → result A * S.

#[global] Instance io_ret {S : Type} : MRet (io S) := λ A a s, (Ok a, s).
#[global] Instance io_bind {S : Type} : MBind (io S) := λ A B f m s,
  match m s with
  | (Ok a, s') => f a s'
  | (Raise e, s') => (Raise e, s')
  end.

Definition raise {S A : Type} (e : exn) : io S A := λ s, (Raise e, s).
Definition of_result {S A : Type} (r : result A) : io S A := λ s, (r, s).
Definition gets {S A : Type} (f : S → A) : io S A := λ s, (Ok (f s), s).
Definition modify {S : Type} (f : S → S) : io S () := λ s, (Ok (), f s).

(** [item in v] for a [str] item *)
Definition contains (v : json) (item : string) : result bool :=
  match v with
  | JDict d => Ok (dict_has item d)
  | JList l => Ok (existsb (λ x, eq_str x item) l)
  | JStr s =>
      Ok (match String.index 0 item s with Some _ => true | None => false end)
  | _ => Raise (Exn "TypeError"
                    ("argument of type '" +:+ type_name v
                     +:+ "' is not iterable"))
  end.

(** [v[0]] *)
Definition index0 (v : json) : result json :=
  match v with
  | JList (x :: _) => Ok x
  | JList [] => Raise (Exn "IndexError" "list index out of range")
  | JStr (String c _) => Ok (JStr (String c EmptyString))
  | JStr EmptyString => Raise (Exn "IndexError" "string index out of range")
  | JDict _ => Raise (Exn "KeyError" "0")
  | _ => Raise (not_subscriptable v)
  end.

(** The fields of a [VKMcpClient] object; [H] is what [subprocess.Popen]
    returns. *)
Record client_object {H : Type} := {
  command : string;
  args : list string;
  _process : option H;
  _initialized : bool;
  _next_id : Z;
}.
Arguments client_object H : clear implicits.

Section Transport.

(** The operating system and the server process are not this program's.
    [W] is their state; a process handle [H] is written to, flushed, read
    from and terminated, each of which can fail.  [dumps] and [loads] are
    [json.dumps] and [json.loads], [container_repr] the [repr] of a list or
    dict. *)
Context {H W : Type}.
Variable Popen : list string → io W H.
Variable write : H → string → io W ().
Variable flush : H → io W ().
Variable readline : H → io W string.
Variable terminate : H → io W ().
Variable dumps : json → string.
Variable loads : string → result json.
Variable container_repr : json → string.

Abbreviation self := (client_object H).

(** [VKMcpClient(command, args)]; [args or [...]] takes the default for an
    empty list as well as for [None]. *)
Definition __init__ (command : string) (args : option (list string)) : self :=
  {| command := command;
     args := match args with
             | Some (a :: l) => a :: l
             | _ => ["-y"; "vibe-kanban@latest"; "--mcp"]
             end;
     _process := None;
     _initialized := false;
     _next_id := 1 |}.

Definition set_process (p : option H) (o : self) : self :=
  {| command := command o; args := args o; _process := p;
     _initialized := _initialized o; _next_id := _next_id o |}.

Definition set_initialized (b : bool) (o : self) : self :=
  {| command := command o; args := args o; _process := _process o;
     _initialized := b; _next_id := _next_id o |}.

Definition set_next_id (n : Z) (o : self) : self :=
  {| command := command o; args := args o; _process := _process o;
     _initialized := _initialized o; _next_id := n |}.

(** A method runs on the object and the world. *)
Definition on_self {A : Type} (m : io self A) : io (self * W) A := λ '(o, w),
  let '(r, o') := m o in (r, (o', w)).

Definition on_world {A : Type} (m : io W A) : io (self * W) A := λ '(o, w),
  let '(r, w') := m w in (r, (o, w')).

(** [self._process.<pipe>]: the handle, when there is a process. *)
Definition process_pipe (pipe : string) : io (self * W) H :=
  process ← on_self (gets _process);
  match process with
  | Some h => mret h
  | None => raise (no_attribute JNone pipe)
  end.

(** [self._process.stdin.write(json.dumps(msg) + "\n")] and the [flush] that
    follows. *)
Definition send (msg : json) : io (self * W) () :=
  h ← process_pipe "stdin";
  _ ← on_world (write h (dumps msg +:+ "
"));
  h ← process_pipe "stdin";
  on_world (flush h).

Definition init_req (id : Z) : json :=
  JDict [("jsonrpc", JStr "2.0");
         ("id", JInt id);
         ("method", JStr "initialize");
         ("params",
          JDict [("protocolVersion", JStr "2024-11-05");
                 ("capabilities", JDict []);
                 ("clientInfo", JDict [("name", JStr "vk-executor");
                                       ("version", JStr "1.0.0")])])].

Definition notif : json :=
  JDict [("jsonrpc", JStr "2.0");
         ("method", JStr "notifications/initialized")].

Definition _ensure_initialized : io (self * W) () :=
  initialized ← on_self (gets _initialized);
  if initialized : bool then mret () else
  process ← on_self (gets _process);
  _ ← match process with
      | None =>
          command ← on_self (gets command);
          args ← on_self (gets args);
          h ← on_world (Popen (command :: args));
          on_self (modify (set_process (Some h)))
      | Some _ => mret ()
      end;
  id ← on_self (gets _next_id);
  _ ← on_self (modify (set_next_id (id + 1)));
  _ ← send (init_req id);
  h ← process_pipe "stdout";
  _ ← on_world (readline h);
  _ ← send notif;
  on_self (modify (set_initialized true)).

Definition tool_request (id : Z) (tool_name : string) (arguments : json) : json :=
  JDict [("jsonrpc", JStr "2.0");
         ("id", JInt id);
         ("method", JStr "tools/call");
         ("params", JDict [("name", JStr tool_name);
                           ("arguments", arguments)])].

(** [json.loads(v)] for a value [v] that need not be a [str] *)
Definition loads_value (v : json) : result json :=
  match v with
  | JStr s => loads s
  | _ => Raise (Exn "TypeError"
                    ("the JSON object must be str, bytes or bytearray, not "
                     +:+ type_name v))
  end.

(** What [_call_tool] makes of a response line that is not empty. *)
Definition read_response (response_line : string) : result json :=
  envelope ← loads response_line;
  is_error ← contains envelope "error";
  if is_error : bool then
    error ← getitem envelope "error";
    message ← get error "message" error;
    Raise (Exn "RuntimeError" ("MCP error: " +:+ format container_repr message))
  else
    result ← get envelope "result" (JDict []);
    content ← get result "content" (JList []);
    if truthy content then
      first ← index0 content;
      type ← get first "type" JNone;
      if eq_str type "text" then
        first ← index0 content;
        text ← getitem first "text";
        loads_value text
      else Ok result
    else Ok result.

Definition _call_tool (tool_name : string) (arguments : json)
  : io (self * W) json :=
  _ ← _ensure_initialized;
  id ← on_self (gets _next_id);
  _ ← on_self (modify (set_next_id (id + 1)));
  _ ← send (tool_request id tool_name arguments);
  h ← process_pipe "stdout";
  response_line ← on_world (readline h);
  if decide (response_line = "") then mret (JDict [])
  else of_result (read_response response_line).

Definition list_projects (organization_id : json) : io (self * W) json :=
  result ← _call_tool "list_projects"
             (JDict [("organization_id", organization_id)]);
  of_result (get result "projects" (JList [])).

Definition list_tasks (project_id : json) : io (self * W) json :=
  result ← _call_tool "list_issues" (JDict [("project_id", project_id)]);
  of_result (get result "issues" (JList [])).

Definition close : io (self * W) () :=
  process ← on_self (gets _process);
  match process with
  | Some h =>
      _ ← on_world (terminate h);
      on_self (modify (set_process None))
  | None => mret ()
  end.

(** The client that [execute_plan] is given in [main]: [create_task] and
    [start_workspace] over this transport. *)
Definition client (str_upper : string → string) : Client (self * W) :=
  VKMcpClient.client _call_tool str_upper.

End Transport.
End Transport.

(** ** I/O Contract *)

Module IO.

(** [val["value"] if isinstance(val, dict) and "value" in val else val] *)
Definition unwrap (val : json) : json :=
  match val with
  | JDict d =>
      match dict_lookup "value" d with Some v => v | None => val end
  | _ => val
  end.

(** [read_input], from the decoded file on: [raw] stands for [json.load(f)].
    [raw.items()] needs a dict; the loop fills [parsed] key by key. *)
Definition read_input (raw : json) : result dict :=
  match raw with
  | JDict items =>
      Ok (foldl (λ parsed '(key, val), dict_set key (unwrap val) parsed)
                [] items)
  | _ => Raise (no_attribute raw "items")
  end.

End IO.

(** ** Entrypoint *)

Module Entrypoint.

(** How a part of [main] ends: in [sys.exit(code)] after lines printed to
    [stderr], in an exception nobody catches, or by going on. *)
Inductive outcome (A : Type) :=
| Exit (code : Z) (stderr : list string)
| Uncaught (e : exn)
| Go (a : A).
Arguments Exit {A} _ _.
Arguments Uncaught {A} _.
Arguments Go {A} _.

#[global] Instance outcome_ret : MRet outcome := @Go.
#[global] Instance outcome_bind : MBind outcome := λ A B f m,
  match m with
  | Go a => f a
  | Exit code stderr => Exit code stderr
  | Uncaught e => Uncaught e
  end.

Definition run {A : Type} (r : result A) : outcome A :=
  match r with Ok a => Go a | Raise e => Uncaught e end.

(** The locals of [main] that the code after planning reads. *)
Record prepared := {
  project_id : json;
  task : json;
  agent : json;
  repo_id : json;
  base_branch : json;
  dry_run : bool;
  manifest : dict;
  plan : json;
}.

(** [str.lower] on ASCII text. *)
Definition lower_char (c : Ascii.ascii) : Ascii.ascii :=
  let n := Ascii.nat_of_ascii c in
  if ((65 <=? n) && (n <=? 90))%nat then Ascii.ascii_of_nat (n + 32) else c.

Fixpoint ascii_lower (s : string) : string :=
  match s with
  | EmptyString => EmptyString
  | String c s' => String (lower_char c) (ascii_lower s')
  end.


Section Entrypoint.

Variable container_repr : json → string.

(** [str.lower]; like [str.upper], Python's business outside ASCII. *)
Variable str_lower : string → string.

(** The order in which [validate_manifest] visits the required keys. *)
Variable o : key_order.

(** The manifest [main] makes of the task file: one task, titled with the
    task text and given to the agent. *)
Definition build_manifest (task agent repo_id base_branch : json) : dict :=
  [("version", JStr "1.0.0");
   ("project", task);
   ("defaults", JDict [("executor", agent); ("repo", repo_id);
                       ("base_branch", base_branch)]);
   ("tasks", JList [JDict [("title", task); ("executor", agent)]])].

(** [main] from the task data to the plan.  What comes before reads
    [sys.argv] and the files; what is printed to [stdout] is left out. *)
Definition prepare (task_data : json) : outcome prepared :=
  project_id ← run (get task_data "project_id" (JStr ""));
  if negb (truthy project_id) then
    Exit 1 ["ERROR: 'project_id' is required"]
  else
    task ← run (get task_data "task" (JStr ""));
    if negb (truthy task) then
      Exit 1 ["ERROR: 'task' is required"]
    else
      agent ← run (get task_data "agent" (JStr "claude-code"));
      repo_id ← run (get task_data "repo_id" (JStr ""));
      base_branch ← run (get task_data "base_branch" (JStr "main"));
      flag ← run (get task_data "dry_run" (JStr "false"));
      let dry_run :=
        bool_decide (str_lower (Planner.format container_repr flag) = "true") in
      let manifest := build_manifest task agent repo_id base_branch in
      errors ← run (Validator.validate_manifest o manifest);
      match errors with
      | _ :: _ =>
          Exit 1 ("Manifest validation errors:"
                    :: ((λ e, "  - " +:+ e) <$> errors))
      | [] =>
          plan ← run (Planner.plan_execution container_repr manifest);
          Go {| project_id := project_id; task := task; agent := agent;
                repo_id := repo_id; base_branch := base_branch;
                dry_run := dry_run; manifest := manifest; plan := plan |}
      end.


End Entrypoint.
End Entrypoint.

(** ** Execution Report: the HTML page *)

Module HtmlReport.

(** The double quote. *)
Definition dq : string := String (Ascii.ascii_of_nat 34) "".

(** One row of the table, cell by cell. *)
Definition html_tr (status_class action title status detail : string)
  : string :=
  "<tr class=" +:+ dq +:+ status_class +:+ dq +:+ ">"
  +:+ "<td>" +:+ action +:+ "</td>"
  +:+ "<td>" +:+ title +:+ "</td>"
  +:+ "<td>" +:+ status +:+ "</td>"
  +:+ "<td>" +:+ detail +:+ "</td>"
  +:+ "</tr>
".

(** The page around the rows. *)
Definition html_page (project total_steps succeeded failed rows : string)
  : string :=
  "<!DOCTYPE html>
<html lang="
    +:+ dq
    +:+ "en"
    +:+ dq
    +:+ ">
<head>
<meta charset="
    +:+ dq
    +:+ "utf-8"
    +:+ dq
    +:+ "/>
<title>VK Execution Report - "
    +:+ project
    +:+ "</title>
<style>
  body { font-family: -apple-system, BlinkMacSystemFont, 'Segoe UI', Helvetica, Arial, sans-serif;
         max-width: 900px; margin: 2em auto; padding: 0 1em; line-height: 1.6; color: #24292e; }
  h1 { border-bottom: 1px solid #eaecef; padding-bottom: 0.3em; }
  table { border-collapse: collapse; width: 100%; margin-top: 1em; }
  th, td { border: 1px solid #dfe2e5; padding: 8px 12px; text-align: left; }
  th { background: #f6f8fa; font-weight: 600; }
  .success { background: #f0fff0; }
  .error { background: #fff0f0; }
  .summary { background: #f0f7ff; border: 1px solid #c8e1ff; border-radius: 6px; padding: 1em; margin-bottom: 1em; }
</style>
</head>
<body>
<h1>Execution Report: "
    +:+ project
    +:+ "</h1>
<div class="
    +:+ dq
    +:+ "summary"
    +:+ dq
    +:+ ">
  <strong>Project:</strong> "
    +:+ project
    +:+ "<br/>
  <strong>Total Steps:</strong> "
    +:+ total_steps
    +:+ "<br/>
  <strong>Succeeded:</strong> "
    +:+ succeeded
    +:+ "<br/>
  <strong>Failed:</strong> "
    +:+ failed
    +:+ "
</div>
<table>
<tr><th>Action</th><th>Title</th><th>Status</th><th>Detail</th></tr>
"
    +:+ rows
    +:+ "</table>
</body>
</html>".

Section HtmlReport.

Variable container_repr : json → string.

Abbreviation format := (Planner.format container_repr).

(** The body of [for r in results]; the loop state is [rows]. *)
Definition html_row (r : json) (rows : string) : result string :=
  status ← getitem r "status";
  let status_class :=
    if eq_str status "success" then "success" else "error" in
  task_id ← get r "task_id" (JStr "-");
  ws_id ← get r "workspace_id" (JStr "-");
  executor ← get r "executor" (JStr "-");
  error ← get r "error" (JStr "");
  action ← getitem r "action";
  let detail :=
    if eq_str action "create_task" then "Task: " +:+ format task_id
    else "WS: " +:+ format ws_id +:+ " (" +:+ format executor +:+ ")" in
  let detail :=
    if truthy error then "Error: " +:+ format error else detail in
  action ← getitem r "action";
  title ← getitem r "title";
  status ← getitem r "status";
  Ok (rows +:+ html_tr status_class (format action) (format title)
                       (format status) detail).

Definition build_execution_report_html (report : json) : result string :=
  project ← get report "project" (JStr "Unknown");
  summary ← get report "summary" (JDict []);
  results ← get report "results" (JList []);
  results ← iter results;
  rows ← for_each html_row results "";
  total_steps ← get summary "total_steps" (JInt 0);
  succeeded ← get summary "succeeded" (JInt 0);
  failed ← get summary "failed" (JInt 0);
  Ok (html_page (format project) (format total_steps) (format succeeded)
                (format failed) rows).

End HtmlReport.
End HtmlReport.

(** ** Notions the properties are stated with *)

(** [v[k]] when [v] is a dict that has the key. *)
Definition field (k : string) (v : json) : option json :=
  match v with
  | JDict d => dict_lookup k d
  | _ => None
  end.

Definition has_field (k : string) (v : json) : bool :=
  match field k v with Some _ => true | None => false end.

Definition action_is (action : string) (step : json) : bool :=
  match field "action" step with
  | Some a => eq_str a action
  | None => false
  end.

(** An integer entry of the [summary] of a plan or of a report. *)
Definition summary_count (k : string) (v : json) : option Z :=
  match field "summary" v with
  | Some summary =>
      match field k summary with Some (JInt n) => Some n | _ => None end
  | None => None
  end.

(** *** Manifests *)

(** What a validation without complaints has checked of a task entry. *)
Definition task_checked (task : json) : Prop :=
  ∃ d, task = JDict d ∧
       dict_has "title" d = true ∧
       (∀ v, dict_lookup "executor" d = Some v →
             ∃ s, v = JStr s ∧ s ∈ VALID_EXECUTORS) ∧
       (∀ v, dict_lookup "priority" d = Some v →
             ∃ s, v = JStr s ∧ s ∈ VALID_PRIORITIES).

Definition manifest_checked (manifest : dict) : Prop :=
  dict_has "version" manifest = true ∧
  dict_has "project" manifest = true ∧
  ∃ tasks, dict_lookup "tasks" manifest = Some (JList tasks) ∧
           tasks ≠ [] ∧ Forall task_checked tasks.

(** The Manifest invariant of the data model, read strictly: names and titles
    are non-empty strings. *)
Definition manifest_invariant (manifest : dict) : Prop :=
  (∃ name, dict_lookup "project" manifest = Some (JStr name) ∧ name ≠ "") ∧
  ∃ tasks, dict_lookup "tasks" manifest = Some (JList tasks) ∧
           tasks ≠ [] ∧
           Forall (λ task, ∃ title, field "title" task = Some (JStr title) ∧
                                    title ≠ "") tasks.

(** The task entries of a manifest and the subtask entries of a task, as the
    planner's loops visit them. *)
Definition manifest_tasks (manifest : dict) : list json :=
  match iter (dict_get "tasks" (JList []) manifest) with
  | Ok tasks => tasks
  | Raise _ => []
  end.

Definition task_subtasks (task : json) : list json :=
  match get task "subtasks" (JList []) ≫= iter with
  | Ok subs => subs
  | Raise _ => []
  end.

Definition manifest_defaults (manifest : dict) : json :=
  dict_get "defaults" (JDict []) manifest.

(** N and S: the numbers of top-level tasks and of subtask entries. *)
Definition task_count (manifest : dict) : nat :=
  length (manifest_tasks manifest).

Definition subtask_count (manifest : dict) : nat :=
  sum_list_with (λ task, length (task_subtasks task)) (manifest_tasks manifest).

(** Manifests typed as the data model has them: [tasks] a list of dicts with
    a title, whose [subtasks] is a list of strings and dicts; [defaults] a
    dict. *)
Definition well_typed_subtask (sub : json) : bool :=
  match sub with
  | JStr _ | JDict _ => true
  | _ => false
  end.

Definition well_typed_task (task : json) : bool :=
  match task with
  | JDict d =>
      dict_has "title" d &&
      match dict_get "subtasks" (JList []) d with
      | JList subs => forallb well_typed_subtask subs
      | _ => false
      end
  | _ => false
  end.

Definition well_typed_manifest (manifest : dict) : bool :=
  match dict_get "tasks" (JList []) manifest with
  | JList tasks => forallb well_typed_task tasks
  | _ => false
  end &&
  match manifest_defaults manifest with
  | JDict _ => true
  | _ => false
  end.

(** Manifests whose titles are strings: every task's title, and every
    subtask that is not itself a string has a string title or none. *)
Definition str_titled_subtask (sub : json) : bool :=
  match sub with
  | JStr _ => true
  | JDict d => match dict_get "title" (JStr "") d with
               | JStr _ => true
               | _ => false
               end
  | _ => false
  end.

Definition str_titled_task (task : json) : bool :=
  match field "title" task with
  | Some (JStr _) => forallb str_titled_subtask (task_subtasks task)
  | _ => false
  end.

Definition str_titled (manifest : dict) : bool :=
  forallb str_titled_task (manifest_tasks manifest).

(** *** Plans *)

Definition plan_steps (plan : json) : list json :=
  match field "steps" plan with
  | Some (JList steps) => steps
  | _ => []
  end.

Definition workspace_steps (plan : json) : list json :=
  List.filter (action_is "start_workspace") (plan_steps plan).

Definition is_create_task (title parent_title step : json) : Prop :=
  field "action" step = Some (JStr "create_task") ∧
  field "title" step = Some title ∧
  field "parent_title" step = Some parent_title.

Definition is_start_workspace (title step : json) : Prop :=
  field "action" step = Some (JStr "start_workspace") ∧
  field "title" step = Some title.

(** The steps of one task, in their order: its CreateTask step, its
    StartWorkspace step, then one CreateTask step for each subtask. *)
Definition task_block (task : json) (block : list json) : Prop :=
  ∃ title create start sub_steps,
    field "title" task = Some title ∧
    block = create :: start :: sub_steps ∧
    is_create_task title JNone create ∧
    is_start_workspace title start ∧
    Forall2 (λ sub step, ∃ sub_title, subtask_title sub = Ok sub_title ∧
                                      is_create_task sub_title title step)
            (task_subtasks task) sub_steps.

(** The value in force for [key] in a task: the task's own, else the
    manifest default, else the hardcoded [fallback]. *)
Definition resolved (manifest : dict) (task : json) (key : string)
    (fallback : json) : json :=
  match field key task with
  | Some v => v
  | None =>
      match field key (manifest_defaults manifest) with
      | Some v => v
      | None => fallback
      end
  end.

(** The CreateTask step the planner makes for the subtask [sub] of the task
    [d] titled [title]. *)
Definition subtask_step (container_repr : json → string) (d : dict)
    (title sub step : json) : Prop :=
  ∃ sub_title, subtask_title sub = Ok sub_title ∧
    step = create_task_step sub_title
             (JStr ("Subtask of: " +:+ format container_repr title))
             (dict_get "priority" (JStr "Medium") d)
             (dict_get "tags" (JList []) d) title.

(** The steps the planner makes for [task] under the given defaults. *)
Definition planned (container_repr : json → string) (de dr db task : json)
    (block : list json) : Prop :=
  ∃ d title sub_steps,
    task = JDict d ∧ dict_lookup "title" d = Some title ∧
    iter (dict_get "subtasks" (JList []) d) = Ok (task_subtasks task) ∧
    block = create_task_step title (dict_get "description" (JStr "") d)
              (dict_get "priority" (JStr "Medium") d)
              (dict_get "tags" (JList []) d) JNone
            :: start_workspace_step title (dict_get "executor" de d)
                 (dict_get "repo" dr d) (dict_get "base_branch" db d)
            :: sub_steps ∧
    Forall2 (subtask_step container_repr d title) (task_subtasks task) sub_steps.

(** A step as the data model has it: a CreateTask or a StartWorkspace step
    with the keys its branch of the executor reads and a [str] title. *)
Definition well_formed_step (step : json) : bool :=
  match field "title" step with
  | Some (JStr _) =>
      (action_is "create_task" step && has_field "description" step) ||
      (action_is "start_workspace" step && has_field "executor" step)
  | _ => false
  end.

(** *** Results and calls *)

(** A result that tells how its step ended. *)
Definition settled (r : json) : Prop :=
  field "status" r = Some (JStr "success") ∨
  field "status" r = Some (JStr "error").

(** [r] is a Step Result for [step]: tagged with its action and title, and
    either a success or an error. *)
Definition result_of (step r : json) : Prop :=
  field "action" r = field "action" step ∧
  field "title" r = field "title" step ∧
  settled r.



(** [c] is the remote call that [step] asks for. *)
Definition call_of (project_id step : json) (c : call) : Prop :=
  match c with
  | create_task_call p title description =>
      field "action" step = Some (JStr "create_task") ∧
      p = project_id ∧
      field "title" step = Some title ∧
      field "description" step = Some description
  | start_workspace_call task_id title executor repo_id base_branch =>
      field "action" step = Some (JStr "start_workspace") ∧
      field "title" step = Some title ∧
      field "executor" step = Some executor ∧
      repo_id = default (JStr "") (field "repo" step) ∧
      base_branch = default (JStr "main") (field "base_branch" step)
  end.

(** The loop state of a run against [recording client], seen from the run
    against [client]. *)
Definition with_log {C : Type} (st : exec_state (C := C)) (log : list call)
  : exec_state (C := C * list call) :=
  {| results := results st;
     title_to_task_id := title_to_task_id st;
     conn := (conn st, log) |}.

(** [succeeded + failed == len(results)] in a report. *)
Definition counts_add_up (report : json) (results : list json) : Prop :=
  ∃ s f, summary_count "succeeded" report = Some s ∧
         summary_count "failed" report = Some f ∧
         s + f = Z.of_nat (length results).

(** ** Sample inputs *)

(** The manifest and the mock client of the test suite, and the plan the
    planner makes of that manifest. *)
Definition SAMPLE_MANIFEST : dict :=
  [("version", JStr "1.0.0"); ("project", JStr "Test Project");
   ("defaults", JDict [("executor", JStr "claude-code");
                       ("repo", JStr "repo-uuid-123");
                       ("base_branch", JStr "main")]);
   ("tasks", JList [JDict [("title", JStr "Build the widget");
                           ("description", JStr "Implement the widget feature");
                           ("executor", JStr "claude-code");
                           ("priority", JStr "High");
                           ("tags", JList [JStr "feature"])]])].

Definition mock_client : Client () :=
  {| create_task _ _ _ c := (Ok (JDict [("issue_id", JStr "task-001")]), c);
     start_workspace _ _ _ _ _ c :=
       (Ok (JDict [("workspace_id", JStr "ws-001")]), c) |}.

Definition sample_plan : json :=
  JDict [("steps",
          JList [create_task_step (JStr "Build the widget")
                   (JStr "Implement the widget feature") (JStr "High")
                   (JList [JStr "feature"]) JNone;
                 start_workspace_step (JStr "Build the widget")
                   (JStr "claude-code") (JStr "repo-uuid-123") (JStr "main")]);
         ("summary", JDict [("total_tasks", JInt 1); ("total_subtasks", JInt 0);
                            ("total_workspaces", JInt 1)])].

(** The test suite's manifest with subtasks, one of them a dict, and a second
    task that relies on the manifest defaults. *)
Definition PARENT_MANIFEST : dict :=
  [("version", JStr "1.0.0"); ("project", JStr "Test Project");
   ("defaults", JDict [("executor", JStr "codex");
                       ("repo", JStr "repo-uuid-123")]);
   ("tasks", JList [JDict [("title", JStr "Parent");
                           ("executor", JStr "claude-code");
                           ("subtasks", JList [JStr "Sub A";
                                               JDict [("title", JStr "Sub B")]])];
                    JDict [("title", JStr "Other")]])].

(** A manifest with one task whose [executor] is a list. *)
Definition list_executor_manifest : dict :=
  [("version", JStr "1.0.0"); ("project", JStr "Test Project");
   ("tasks", JList [JDict [("title", JStr "Build the widget");
                           ("executor", JList [JStr "claude-code"])]])].

(** A manifest whose project name and only title are empty strings. *)
Definition empty_names_manifest : dict :=
  [("version", JStr "1.0.0"); ("project", JStr "");
   ("tasks", JList [JDict [("title", JStr "")]])].

(** A manifest with two tasks of the same title, its plan, and a client that
    accepts the first and rejects the second. *)
Definition TWIN_MANIFEST : dict :=
  [("version", JStr "1.0.0"); ("project", JStr "Test Project");
   ("tasks", JList [JDict [("title", JStr "Deploy");
                           ("description", JStr "first")];
                    JDict [("title", JStr "Deploy");
                           ("description", JStr "second")]])].

Definition twin_plan : json :=
  JDict [("steps",
          JList [create_task_step (JStr "Deploy") (JStr "first")
                   (JStr "Medium") (JList []) JNone;
                 start_workspace_step (JStr "Deploy") (JStr "claude-code")
                   (JStr "") (JStr "main");
                 create_task_step (JStr "Deploy") (JStr "second")
                   (JStr "Medium") (JList []) JNone;
                 start_workspace_step (JStr "Deploy") (JStr "claude-code")
                   (JStr "") (JStr "main")]);
         ("summary", JDict [("total_tasks", JInt 2); ("total_subtasks", JInt 0);
                            ("total_workspaces", JInt 2)])].

Definition rejecting_second : Client () :=
  {| create_task _ _ description c :=
       (if eq_str description "second"
        then Raise (Exn "RuntimeError" "MCP error: rejected")
        else Ok (JDict [("issue_id", JStr "task-001")]), c);
     start_workspace _ _ _ _ _ c :=
       (Ok (JDict [("workspace_id", JStr "ws-001")]), c) |}.

(** A manifest whose first title is a list of words: it has the required
    keys and its tasks have titles, which is all that validation asks. *)
Definition LIST_TITLE_MANIFEST : dict :=
  [("version", JStr "1.0.0"); ("project", JStr "Test Project");
   ("tasks", JList [JDict [("title", JList [JStr "Build"; JStr "widget"])];
                    JDict [("title", JStr "Second")]])].

(** A client whose every call raises. *)
Definition rejecting_all : Client () :=
  {| create_task _ _ _ c :=
       (Raise (Exn "RuntimeError" "MCP error: rejected"), c);
     start_workspace _ _ _ _ _ c :=
       (Raise (Exn "RuntimeError" "MCP error: rejected"), c) |}.

(** *** Further notions *)

(** What planning needs of a manifest beyond what validation checks: a
    [defaults] that is a dict, and [subtasks] that are lists of strings and
    dicts. *)
Definition typed_subtasks (task : json) : bool :=
  match task with
  | JDict d =>
      match dict_get "subtasks" (JList []) d with
      | JList subs => forallb well_typed_subtask subs
      | _ => false
      end
  | _ => true
  end.

Definition typed_for_planning (manifest : dict) : bool :=
  match manifest_defaults manifest with
  | JDict _ => true
  | _ => false
  end &&
  forallb typed_subtasks (manifest_tasks manifest).

(** The plan of a manifest without tasks. *)
Definition empty_plan : json :=
  JDict [("steps", JList []);
         ("summary", JDict [("total_tasks", JInt 0); ("total_subtasks", JInt 0);
                            ("total_workspaces", JInt 0)])].

(** A manifest with a subtask, for the examples about inheritance. *)
Definition TAGGED_MANIFEST : dict :=
  [("version", JStr "1.0.0"); ("project", JStr "Test Project");
   ("tasks", JList [JDict [("title", JStr "Parent");
                           ("priority", JStr "Urgent");
                           ("tags", JList [JStr "feature"]);
                           ("subtasks", JList [JStr "Sub A"])]])].

(** The CreateTask step of a subtask takes after its parent's: same priority
    and tags, the parent's title as [parent_title], and a description that
    names the parent. *)
Definition subtask_inherits (container_repr : json → string)
    (task create sub_step : json) : Prop :=
  field "priority" sub_step = field "priority" create ∧
  field "tags" sub_step = field "tags" create ∧
  field "parent_title" sub_step = field "title" task ∧
  ∃ title, field "title" task = Some title ∧
           field "description" sub_step
           = Some (JStr ("Subtask of: " +:+ format container_repr title)).

(** The CreateTask step of a task itself: the task's own description,
    priority and tags, or "", "Medium" and no tags. *)
Definition task_step_defaults (task create : json) : Prop :=
  field "description" create
  = Some (default (JStr "") (field "description" task)) ∧
  field "priority" create
  = Some (default (JStr "Medium") (field "priority" task)) ∧
  field "tags" create = Some (default (JList []) (field "tags" task)).


(** A plan that consists of the given steps. *)
Definition plan_of_steps (steps : list json) : json :=
  JDict [("steps", JList steps)].

(** [r] is the dry run's account of [step]. *)
Definition skipped_of (step r : json) : Prop :=
  field "action" r = field "action" step ∧
  field "title" r = field "title" step ∧
  field "status" r = Some (JStr "skipped").

(** *** The transport, observed *)

(** A world that also keeps the lines written to the server, in order. *)
Definition logged_write {H W : Type} (write : H → string → Transport.io W ())
  : H → string → Transport.io (W * list string) () :=
  λ h line '(w, lines),
    let '(r, w') := write h line w in (r, (w', lines ++ [line])).

Definition unlogged {X W A : Type} (op : X → Transport.io W A)
  : X → Transport.io (W * list string) A :=
  λ x '(w, lines), let '(r, w') := op x w in (r, (w', lines)).

(** A server process that a test can script: [Popen] always starts it,
    writes and flushes go through, and [readline] hands out the lines of the
    script one by one and then the empty string of a closed pipe. *)
Definition scripted_Popen (_ : list string) : Transport.io (list string) () :=
  λ script, (Ok (), script).

Definition scripted_write (_ : ()) (_ : string) : Transport.io (list string) () :=
  λ script, (Ok (), script).

Definition scripted_flush (_ : ()) : Transport.io (list string) () :=
  λ script, (Ok (), script).

Definition scripted_readline (_ : ()) : Transport.io (list string) string :=
  λ script,
    match script with
    | [] => (Ok "", [])
    | line :: script' => (Ok line, script')
    end.

(** A stand-in for [json.loads] that knows two texts. *)
Definition loads_sample (s : string) : result json :=
  if decide (s = "{}") then Ok (JDict [])
  else if decide (s = "error-line")
       then Ok (JDict [("error", JDict [("message", JStr "rejected")])])
       else Raise (Exn "JSONDecodeError" "Expecting value").

(** A step whose executor, if it has one, is a string. *)
Definition str_executor (step : json) : bool :=
  match field "executor" step with
  | Some (JStr _) | None => true
  | _ => false
  end.

(** [r] reports [step] as done, with an empty task identifier. *)
Definition empty_success_of (step r : json) : Prop :=
  field "action" r = field "action" step ∧
  field "title" r = field "title" step ∧
  field "status" r = Some (JStr "success") ∧
  field "task_id" r = Some (JStr "").

(** An input file as the agent platform writes it: the task file behind a
    typed wrapper, a flag given flat. *)
Definition WRAPPED_INPUT : dict :=
  [("task_file", JDict [("type", JStr "user_model");
                        ("value", JStr "/tmp/task.json")]);
   ("dry_run", JBool true);
   ("options", JDict [("value", JDict [("value", JInt 1)])]);
   ("labels", JDict [("kind", JStr "demo")])].

(** A task file as the entrypoint's doc comment shows it. *)
Definition TASK_FILE : dict :=
  [("project_id", JStr "proj-1");
   ("task", JStr "Add a login page");
   ("agent", JStr "codex");
   ("repo_id", JStr "repo-1")].



(** What [main] makes of a task file with the given task and agent, the
    project "proj-1" and nothing else. *)
Definition prepared_of (task agent repo_id : json) : Entrypoint.prepared :=
  {| Entrypoint.project_id := JStr "proj-1";
     Entrypoint.task := task;
     Entrypoint.agent := agent;
     Entrypoint.repo_id := repo_id;
     Entrypoint.base_branch := JStr "main";
     Entrypoint.dry_run := false;
     Entrypoint.manifest :=
       Entrypoint.build_manifest task agent repo_id (JStr "main");
     Entrypoint.plan :=
       JDict [("steps",
               JList [create_task_step task (JStr "") (JStr "Medium")
                                       (JList []) JNone;
                      start_workspace_step task agent repo_id (JStr "main")]);
              ("summary", JDict [("total_tasks", JInt 1);
                                 ("total_subtasks", JInt 0);
                                 ("total_workspaces", JInt 1)])] |}.

(** A task file that asks for a dry run, with the JSON value [true]. *)
Definition DRY_RUN_TASK_FILE : dict :=
  [("project_id", JStr "proj-1");
   ("task", JStr "Add a login page");
   ("dry_run", JBool true)].

(** What [main] makes of it. *)
Definition dry_run_prepared : Entrypoint.prepared :=
  let p := prepared_of (JStr "Add a login page") (JStr "claude-code")
                       (JStr "") in
  {| Entrypoint.project_id := Entrypoint.project_id p;
     Entrypoint.task := Entrypoint.task p;
     Entrypoint.agent := Entrypoint.agent p;
     Entrypoint.repo_id := Entrypoint.repo_id p;
     Entrypoint.base_branch := Entrypoint.base_branch p;
     Entrypoint.dry_run := true;
     Entrypoint.manifest := Entrypoint.manifest p;
     Entrypoint.plan := Entrypoint.plan p |}.

(** The two steps that [main]'s manifest is planned into. *)
Definition main_steps (p : Entrypoint.prepared) : list json :=
  [create_task_step (Entrypoint.task p) (JStr "") (JStr "Medium") (JList [])
                    JNone;
   start_workspace_step (Entrypoint.task p) (Entrypoint.agent p)
                        (Entrypoint.repo_id p) (Entrypoint.base_branch p)].

(** A result that a row can be made of. *)
Definition reportable (r : json) : Prop :=
  is_Some (field "action" r) ∧ is_Some (field "title" r) ∧
  is_Some (field "status" r).

(** The rows of a table, one after the other. *)
Definition rows_of (rows : list string) : string :=
  foldr String.append "" rows.

(** The row that stands for a step that was skipped: in the style of an
    error, and with dashes where the identifiers would be. *)
Definition skipped_row (container_repr : json → string) (step : json)
  : string :=
  "<tr class=" +:+ HtmlReport.dq +:+ "error" +:+ HtmlReport.dq +:+ ">"
  +:+ "<td>"
  +:+ Planner.format container_repr (default JNone (field "action" step))
  +:+ "</td><td>"
  +:+ Planner.format container_repr (default JNone (field "title" step))
  +:+ "</td><td>skipped</td><td>"
  +:+ (if action_is "create_task" step then "Task: -" else "WS: - (-)")
  +:+ "</td></tr>
".

(** The results and the report of running [twin_plan] against the client
    that rejects the second task, and those of its dry run. *)
Definition twin_results : list json :=
  Eval vm_compute in
    match execute_plan rejecting_second twin_plan (JStr "proj-1") () with
    | Ok (results, _) => results
    | Raise _ => []
    end.

Definition twin_report : json :=
  Eval vm_compute in
    match build_execution_report "2026-01-01T00:00:00+00:00" TWIN_MANIFEST
            twin_plan twin_results (JStr "proj-1") with
    | Ok report => report
    | Raise _ => JNone
    end.

Definition twin_dry_results : list json :=
  Eval vm_compute in
    match dry_run_results twin_plan with
    | Ok results => results
    | Raise _ => []
    end.

Definition twin_dry_report : json :=
  Eval vm_compute in
    match build_execution_report "2026-01-01T00:00:00+00:00" TWIN_MANIFEST
            twin_plan twin_dry_results (JStr "proj-1") with
    | Ok report => report
    | Raise _ => JNone
    end.

(** * Properties *)

Lemma bind_Ok {A B} (m : result A) (f : A → result B) (b : B) :
  m ≫= f = Ok b → ∃ a, m = Ok a ∧ f a = Ok b.
Proof. destruct m as [a|e]; simpl; [eauto | discriminate]. Qed.

Ltac inv_bind H :=
  let a := fresh "x" in
  let Ha := fresh "E" in
  apply bind_Ok in H as (a & Ha & H).

Lemma dict_has_true k d : dict_has k d = true ↔ is_Some (dict_lookup k d).
Proof.
  unfold dict_has. destruct (dict_lookup k d); split; intros H;
    try done; eauto.
Qed.

(** ** Validator *)

Section ValidatorFacts.

Lemma check_member_grows key allowed msg task errors errors' :
  check_member key allowed msg task errors = Ok errors' →
  ∃ added, errors' = errors ++ added ∧
    (added = [] → ∀ v, dict_lookup key task = Some v →
                       ∃ s, v = JStr s ∧ s ∈ allowed).
Proof.
  unfold check_member. destruct (dict_lookup key task) as [v|] eqn:Hv.
  - intros H. inv_bind H. destruct v as [a| |]; simplify_eq/=.
    destruct (in_str_set x allowed) eqn:Hin; simplify_eq.
    + exists []. rewrite app_nil_r. split; [done|].
      intros _ v [= <-]. destruct x; simplify_eq/=.
      apply bool_decide_eq_true in Hin. eauto.
    + eexists. split; [done|]. intros ?; simplify_eq.
  - intros [= <-]. exists []. rewrite app_nil_r. split; [done|]. by intros _ v.
Qed.

Lemma check_task_grows i task errors errors' :
  check_task i task errors = Ok errors' →
  ∃ added, errors' = errors ++ added ∧ (added = [] → task_checked task).
Proof.
  unfold check_task. destruct task as [a|l|d].
  1,2: intros [= <-]; eexists; split; [done|]; intros ?; simplify_eq.
  intros H. inv_bind H.
  apply check_member_grows in E as (a1 & -> & H1).
  apply check_member_grows in H as (a2 & -> & H2).
  destruct (dict_has "title" d) eqn:Ht.
  - exists (a1 ++ a2). rewrite <-app_assoc. split; [done|].
    intros [-> ->]%app_eq_nil. exists d. split_and!; auto.
  - exists ([missing_title_msg i] ++ a1 ++ a2). rewrite <-!app_assoc.
    split; [done|]. intros ?; simplify_eq.
Qed.

Lemma check_tasks_grows tasks : ∀ i errors errors',
  check_tasks i tasks errors = Ok errors' →
  ∃ added, errors' = errors ++ added ∧ (added = [] → Forall task_checked tasks).
Proof.
  induction tasks as [|task rest IH]; intros i errors errors' H; simpl in H.
  - simplify_eq. exists []. by rewrite app_nil_r.
  - inv_bind H. apply check_task_grows in E as (a1 & -> & H1).
    apply IH in H as (a2 & -> & H2).
    exists (a1 ++ a2). rewrite <-app_assoc. split; [done|].
    intros [-> ->]%app_eq_nil. constructor; auto.
Qed.

Lemma check_required_nil o manifest :
  check_required (REQUIRED_MANIFEST_KEYS o) manifest = [] →
  dict_has "version" manifest = true ∧ dict_has "project" manifest = true ∧
  dict_has "tasks" manifest = true.
Proof.
  unfold check_required. intros Hnil%fmap_nil_inv.
  assert (∀ key, key ∈ REQUIRED_MANIFEST_KEYS o → dict_has key manifest = true)
    as Hall.
  { intros key Hin. destruct (dict_has key manifest) eqn:Hkey; [done|].
    by destruct (filter_nil_not_elem_of _ _ key Hnil Hkey). }
  split_and!; apply Hall; destruct o; set_solver.
Qed.

End ValidatorFacts.

(** C5.  [validate_manifest] does not return on every dict manifest: on a
    task whose [executor] is a list, the membership test in
    [VALID_EXECUTORS] raises [TypeError] and no list of messages comes
    back. *)
Theorem validate_manifest_raises_on_list_executor (o : key_order) :
  validate_manifest o list_executor_manifest
  = Raise (Exn "TypeError" "unhashable type: 'list'").
Proof. by destruct o. Qed.

(** Where no [executor] or [priority] is a list or a dict, validation returns:
    the messages of all the checks, none of which stops the others. *)
Lemma check_tasks_returns tasks : ∀ i errors,
  Forall (λ task, ∀ d, task = JDict d →
            ∀ key v, key ∈ ["executor"; "priority"] →
                     dict_lookup key d = Some v → ∃ a, v = JScalar a) tasks →
  is_Ok (check_tasks i tasks errors).
Proof.
  induction tasks as [|task rest IH]; intros i errors Hall; simpl; [done|].
  apply Forall_cons in Hall as [Htask Hrest].
  assert (∃ errors', check_task i task errors = Ok errors') as [errors' ->].
  { destruct task as [a|l|d]; simpl; eauto.
    assert (∀ key allowed msg errs, key ∈ ["executor"; "priority"] →
              ∃ errs', check_member key allowed msg d errs = Ok errs') as Hm.
    { intros key allowed msg errs Hkey. unfold check_member.
      destruct (dict_lookup key d) as [v|] eqn:Hv; [|eauto].
      destruct (Htask d eq_refl key v Hkey Hv) as [a ->]. simpl.
      destruct (in_str_set a allowed); eauto. }
    edestruct (Hm "executor") as [e1 ->]; [set_solver|]. simpl.
    apply Hm. set_solver. }
  simpl. by apply IH.
Qed.

Lemma validate_manifest_returns o manifest :
  (∀ tasks, dict_lookup "tasks" manifest = Some (JList tasks) →
     Forall (λ task, ∀ d, task = JDict d →
               ∀ key v, key ∈ ["executor"; "priority"] →
                        dict_lookup key d = Some v → ∃ a, v = JScalar a) tasks) →
  is_Ok (validate_manifest o manifest).
Proof.
  intros Hall. unfold validate_manifest.
  destruct (dict_lookup "tasks" manifest) as [[a|[|task rest]|d]|]; try done.
  by apply check_tasks_returns, Hall.
Qed.

(** Every violation is reported, not just the first: a missing key, and for
    each task entry in turn what is wrong with it. *)
Example validate_manifest_accumulates :
  validate_manifest VTP
    [("version", JStr "1.0.0");
     ("tasks", JList [JDict [("executor", JStr "bad-bot"); ("priority", JInt 3)];
                      JNone])]
  = Ok ["Missing required key: 'project'";
        "Task 0 missing required key: 'title'";
        "Task 0 has invalid executor: 'bad-bot'. Must be one of: amp, claude-code, codex, copilot, cursor_agent, droid, gemini, opencode, qwen-code";
        "Task 0 has invalid priority: '3'. Must be one of: High, Low, Medium, Urgent";
        "Task 1 is not a dict"].
Proof. reflexivity. Qed.

(** C6, counterexample.  Validation finds nothing wrong with a manifest whose
    project name and task title are empty. *)
Lemma validate_manifest_accepts_empty_names :
  (∀ o, validate_manifest o empty_names_manifest = Ok []) ∧
  ¬ manifest_invariant empty_names_manifest.
Proof.
  split; [by intros []|].
  intros [(name & Hname & Hne) _]. simpl in Hname. by simplify_eq.
Qed.

(** C6, amended.  A manifest on which [validate_manifest] returns no message
    has the keys [version], [project] and [tasks]; its [tasks] is a non-empty
    list; and every task is a dict with a [title] key whose [executor] and
    [priority], where present, are among the valid ones. *)
Theorem validate_manifest_empty_checked (o : key_order) (manifest : dict) :
  validate_manifest o manifest = Ok [] → manifest_checked manifest.
Proof.
  unfold validate_manifest. intros H.
  destruct (dict_lookup "tasks" manifest) as [tasks|] eqn:Htasks.
  - destruct tasks as [a|[|task rest]|d];
      try (injection H as H; by apply app_eq_nil in H as [_ ?]).
    apply check_tasks_grows in H as (added & Heq & Hadd).
    symmetry in Heq. apply app_eq_nil in Heq as [Hreq ->].
    apply check_required_nil in Hreq as (Hv & Hp & _).
    split_and!; [done..|]. exists (task :: rest). split_and!; auto.
  - injection H as H. apply check_required_nil in H as (_ & _ & Ht).
    unfold dict_has in Ht. by rewrite Htasks in Ht.
Qed.

Lemma validate_manifest_empty_checked_witness :
  validate_manifest VTP SAMPLE_MANIFEST = Ok [] ∧
  manifest_checked SAMPLE_MANIFEST.
Proof.
  split; [reflexivity|].
  apply (validate_manifest_empty_checked VTP). reflexivity.
Defined.

(** ** Reporter *)

Section ReporterFacts.

Lemma has_status_Ok status r b :
  has_status status r = Ok b →
  ∃ v, field "status" r = Some v ∧ b = eq_str v status.
Proof.
  unfold has_status. intros H. inv_bind H. simplify_eq.
  destruct r as [| |d]; simplify_eq/=.
  destruct (dict_lookup "status" d); simplify_eq. eauto.
Qed.

Lemma count_success_error results : ∀ s f,
  count_where (has_status "success") results = Ok s →
  count_where (has_status "error") results = Ok f →
  0 ≤ s ∧ 0 ≤ f ∧ s + f ≤ Z.of_nat (length results) ∧
  (Forall settled results → s + f = Z.of_nat (length results)).
Proof.
  induction results as [|r rest IH]; intros s f Hs Hf; simpl in *.
  - simplify_eq. split_and!; done.
  - apply bind_Ok in Hs as (bs & Hbs & Hs). apply bind_Ok in Hs as (s' & Hs' & Hs).
    apply bind_Ok in Hf as (bf & Hbf & Hf). apply bind_Ok in Hf as (f' & Hf' & Hf).
    simplify_eq.
    destruct (IH _ _ Hs' Hf') as (Hs0 & Hf0 & Hle & Heq).
    apply has_status_Ok in Hbs as (v & Hv & ->).
    apply has_status_Ok in Hbf as (v' & Hv' & ->).
    rewrite Hv in Hv'. simplify_eq.
    assert (eq_str v' "success" = true → eq_str v' "error" = false) as Hdisj.
    { destruct v' as [[]| |]; simpl; try done.
      intros ->%bool_decide_eq_true. done. }
    split_and!.
    + destruct (eq_str v' "success"); lia.
    + destruct (eq_str v' "error"); lia.
    + destruct (eq_str v' "success"); [rewrite Hdisj by done|];
        destruct (eq_str v' "error"); lia.
    + intros [Hr Hrest]%Forall_cons. specialize (Heq Hrest).
      unfold settled in Hr. rewrite Hv in Hr.
      destruct Hr as [[= ->]|[= ->]]; simpl; lia.
Qed.

Lemma build_execution_report_summary now manifest plan results project_id report :
  build_execution_report now manifest plan results project_id = Ok report →
  ∃ s f, count_where (has_status "success") results = Ok s ∧
         count_where (has_status "error") results = Ok f ∧
         summary_count "succeeded" report = Some s ∧
         summary_count "failed" report = Some f ∧
         summary_count "total_steps" report = Some (Z.of_nat (length results)).
Proof.
  unfold build_execution_report. intros H.
  inv_bind H. inv_bind H. do 4 inv_bind H. simplify_eq. eauto 10.
Qed.

End ReporterFacts.

(** ** Planner *)

Section PlannerFacts.
Variable container_repr : json → string.

Lemma plan_subtasks_inv d title subs : ∀ steps n steps' n',
  dict_lookup "title" d = Some title →
  for_each (plan_subtask container_repr (JDict d)) subs (steps, n)
  = Ok (steps', n') →
  ∃ sub_steps, steps' = steps ++ sub_steps ∧
               n' = n + Z.of_nat (length subs) ∧
               Forall2 (subtask_step container_repr d title) subs sub_steps.
Proof.
  induction subs as [|sub subs IH]; intros steps n steps' n' Ht H; simpl in H.
  - simplify_eq. exists []. rewrite app_nil_r. split_and!; [done|simpl; lia|constructor].
  - apply bind_Ok in H as ([steps1 n1] & Hsub & H).
    unfold plan_subtask in Hsub. simpl in Hsub. rewrite Ht in Hsub. simpl in Hsub.
    apply bind_Ok in Hsub as (sub_title & Hst & Hsub). simplify_eq.
    apply IH in H as (sub_steps & -> & -> & Hall); [|done].
    eexists (_ :: sub_steps). rewrite <-app_assoc. split_and!; [done|simpl; lia|].
    constructor; [|done]. by exists sub_title.
Qed.

Lemma plan_task_inv de dr db task steps n steps' n' :
  plan_task container_repr de dr db task (steps, n) = Ok (steps', n') →
  ∃ block, planned container_repr de dr db task block ∧
           steps' = steps ++ block ∧
           n' = n + Z.of_nat (length (task_subtasks task)).
Proof.
  unfold plan_task. intros H.
  destruct task as [a|l|d]; try discriminate. simpl in H.
  destruct (dict_lookup "title" d) as [title|] eqn:Ht; [|discriminate].
  simpl in H. apply bind_Ok in H as (subs & Hsubs & H).
  rewrite <-app_assoc in H.
  apply plan_subtasks_inv with (title := title) in H
    as (sub_steps & -> & -> & Hall); [|done].
  assert (task_subtasks (JDict d) = subs) as Hts.
  { unfold task_subtasks. simpl. by rewrite Hsubs. }
  eexists. split.
  - exists d, title, sub_steps. rewrite Hts. split_and!; done.
  - rewrite Hts, <-app_assoc. done.
Qed.

Lemma plan_tasks_inv de dr db tasks : ∀ steps n steps' n',
  for_each (plan_task container_repr de dr db) tasks (steps, n)
  = Ok (steps', n') →
  ∃ blocks, Forall2 (planned container_repr de dr db) tasks blocks ∧
            steps' = steps ++ concat blocks ∧
            n' = n + Z.of_nat
                       (sum_list_with (λ task, length (task_subtasks task)) tasks).
Proof.
  induction tasks as [|task tasks IH]; intros steps n steps' n' H; simpl in H.
  - simplify_eq. exists []. rewrite app_nil_r. split_and!; [constructor|done|simpl; lia].
  - apply bind_Ok in H as ([steps1 n1] & Htask & H).
    apply plan_task_inv in Htask as (block & Hblock & -> & ->).
    apply IH in H as (blocks & Hblocks & -> & ->).
    exists (block :: blocks). split_and!.
    + by constructor.
    + simpl. by rewrite <-app_assoc.
    + simpl. lia.
Qed.

Lemma planned_length de dr db task block :
  planned container_repr de dr db task block →
  length block = (2 + length (task_subtasks task))%nat.
Proof.
  intros (d & title & sub_steps & -> & _ & _ & -> & Hall). simpl.
  by rewrite (Forall2_length _ _ _ Hall).
Qed.

Lemma planned_blocks_length de dr db tasks blocks :
  Forall2 (planned container_repr de dr db) tasks blocks →
  length (concat blocks)
  = (2 * length tasks
     + sum_list_with (λ task, length (task_subtasks task)) tasks)%nat.
Proof.
  induction 1 as [|task block tasks blocks Hb _ IH]; simpl; [done|].
  rewrite length_app, IH, (planned_length _ _ _ _ _ Hb). lia.
Qed.

Lemma subtask_steps_not_workspace d title subs sub_steps :
  Forall2 (subtask_step container_repr d title) subs sub_steps →
  List.filter (action_is "start_workspace") sub_steps = [].
Proof.
  induction 1 as [|sub step subs sub_steps (st & _ & ->) _ IH]; simpl; done.
Qed.

(** The StartWorkspace steps among the planned blocks: one per task. *)
Lemma planned_workspace_steps de dr db tasks blocks :
  Forall2 (planned container_repr de dr db) tasks blocks →
  Forall2 (λ task step, ∃ d title,
             task = JDict d ∧ dict_lookup "title" d = Some title ∧
             step = start_workspace_step title (dict_get "executor" de d)
                      (dict_get "repo" dr d) (dict_get "base_branch" db d))
          tasks (List.filter (action_is "start_workspace") (concat blocks)).
Proof.
  induction 1 as [|task block tasks blocks Hb _ IH]; simpl; [constructor|].
  destruct Hb as (d & title & sub_steps & -> & Ht & _ & -> & Hall).
  rewrite List.filter_app. simpl.
  rewrite ?List.filter_app, (subtask_steps_not_workspace _ _ _ _ Hall). simpl.
  constructor; [|done]. by exists d, title.
Qed.

Lemma planned_steps_have_action de dr db tasks blocks :
  Forall2 (planned container_repr de dr db) tasks blocks →
  Forall (λ step, is_Some (field "action" step)) (concat blocks).
Proof.
  induction 1 as [|task block tasks blocks Hb _ IH]; simpl; [constructor|].
  destruct Hb as (d & title & sub_steps & -> & Ht & _ & -> & Hall).
  apply Forall_app. split; [|done].
  repeat (constructor; [by eexists|]).
  clear -Hall. induction Hall as [|sub step subs sub_steps (st & _ & ->) _ IH];
    constructor; [by eexists|done].
Qed.

Lemma filter_where_action action steps :
  Forall (λ step, is_Some (field "action" step)) steps →
  filter_where (λ s, a ← getitem s "action"; Ok (eq_str a action)) steps
  = Ok (List.filter (action_is action) steps).
Proof.
  induction 1 as [|step steps [a Ha] _ IH]; simpl; [done|].
  destruct step as [| |d]; simplify_eq/=.
  unfold action_is. simpl. rewrite Ha, IH. simpl.
  by destruct (eq_str a action).
Qed.

Lemma length_chars s : length (chars s) = String.length s.
Proof. induction s; simpl; congruence. Qed.

Lemma len_iter v items n :
  iter v = Ok items → len v = Ok n → n = Z.of_nat (length items).
Proof.
  destruct v as [[]|l|d]; intros; simplify_eq/=; try done.
  - by rewrite length_chars.
  - by rewrite !length_fmap.
Qed.

(** What [plan_execution] returns, when it returns. *)
Lemma plan_execution_inv manifest plan :
  plan_execution container_repr manifest = Ok plan →
  ∃ dd de dr db blocks,
    manifest_defaults manifest = JDict dd ∧
    de = dict_get "executor" (JStr "claude-code") dd ∧
    dr = dict_get "repo" (JStr "") dd ∧
    db = dict_get "base_branch" (JStr "main") dd ∧
    iter (dict_get "tasks" (JList []) manifest) = Ok (manifest_tasks manifest) ∧
    Forall2 (planned container_repr de dr db) (manifest_tasks manifest) blocks ∧
    plan = JDict [("steps", JList (concat blocks));
                  ("summary",
                   JDict [("total_tasks", JInt (Z.of_nat (task_count manifest)));
                          ("total_subtasks",
                           JInt (Z.of_nat (subtask_count manifest)));
                          ("total_workspaces",
                           JInt (Z.of_nat (task_count manifest)))])].
Proof.
  unfold plan_execution. intros H.
  fold (manifest_defaults manifest) in H.
  destruct (manifest_defaults manifest) as [a|l|dd] eqn:Hd; try discriminate.
  simpl in H. apply bind_Ok in H as (tasks & Htasks & H).
  apply bind_Ok in H as ([steps n] & Hloop & H).
  apply plan_tasks_inv in Hloop as (blocks & Hblocks & -> & ->).
  apply bind_Ok in H as (total_tasks & Hlen & H).
  rewrite (filter_where_action _ _ (planned_steps_have_action _ _ _ _ _ Hblocks))
    in H. simpl in H.
  assert (manifest_tasks manifest = tasks) as Hmt.
  { unfold manifest_tasks. by rewrite Htasks. }
  apply (len_iter _ _ _ Htasks) in Hlen as ->.
  rewrite <-(Forall2_length _ _ _ (planned_workspace_steps _ _ _ _ _ Hblocks)) in H.
  exists dd. eexists _, _, _, blocks. unfold task_count, subtask_count.
  rewrite Hmt. split_and!; try done. by simplify_eq.
Qed.

(** On a manifest typed as the data model has it, [plan_execution] returns. *)
Lemma plan_subtask_total d sub acc :
  is_Some (dict_lookup "title" d) →
  well_typed_subtask sub = true →
  ∃ acc', plan_subtask container_repr (JDict d) sub acc = Ok acc'.
Proof.
  intros [title Ht] Hsub. destruct acc as [steps n].
  unfold plan_subtask. simpl. rewrite Ht. simpl.
  destruct sub as [[]| |]; try done; simpl; eauto.
Qed.

Lemma plan_subtasks_total d subs : ∀ acc,
  is_Some (dict_lookup "title" d) →
  forallb well_typed_subtask subs = true →
  ∃ acc', for_each (plan_subtask container_repr (JDict d)) subs acc = Ok acc'.
Proof.
  induction subs as [|sub subs IH]; intros acc Ht Hsubs; simpl; [eauto|].
  apply andb_prop in Hsubs as [Hsub Hsubs].
  destruct (plan_subtask_total d sub acc Ht Hsub) as [acc' ->]. simpl.
  by apply IH.
Qed.

Lemma plan_task_total de dr db task acc :
  well_typed_task task = true →
  ∃ acc', plan_task container_repr de dr db task acc = Ok acc'.
Proof.
  intros Htask. destruct task as [a|l|d]; try done. simpl in Htask.
  apply andb_prop in Htask as [Ht Hsubs]. destruct acc as [steps n].
  apply dict_has_true in Ht as [title Ht].
  unfold plan_task. simpl. rewrite Ht. simpl.
  destruct (dict_get "subtasks" (JList []) d) as [a|subs|d'] eqn:Hs; try done.
  simpl. apply plan_subtasks_total; [by eexists|done].
Qed.

Lemma plan_tasks_total de dr db tasks : ∀ acc,
  forallb well_typed_task tasks = true →
  ∃ acc', for_each (plan_task container_repr de dr db) tasks acc = Ok acc'.
Proof.
  induction tasks as [|task tasks IH]; intros acc Htasks; simpl; [eauto|].
  apply andb_prop in Htasks as [Htask Htasks].
  destruct (plan_task_total de dr db task acc Htask) as [acc' ->]. simpl.
  by apply IH.
Qed.

Lemma plan_execution_total manifest :
  well_typed_manifest manifest = true →
  ∃ plan, plan_execution container_repr manifest = Ok plan.
Proof.
  unfold well_typed_manifest. intros [Htasks Hdefaults]%andb_prop.
  unfold plan_execution. fold (manifest_defaults manifest).
  destruct (manifest_defaults manifest) as [a|l|dd]; try done.
  destruct (dict_get "tasks" (JList []) manifest) as [a|tasks|d]; try done.
  simpl.
  destruct (plan_tasks_total (dict_get "executor" (JStr "claude-code") dd)
    (dict_get "repo" (JStr "") dd) (dict_get "base_branch" (JStr "main") dd)
    tasks ([], 0) Htasks) as [[steps n] Hloop].
  rewrite Hloop. simpl.
  apply plan_tasks_inv in Hloop as (blocks & Hblocks & -> & ->).
  rewrite (filter_where_action _ _ (planned_steps_have_action _ _ _ _ _ Hblocks)).
  simpl. eauto.
Qed.

Lemma planned_task_block de dr db task block :
  planned container_repr de dr db task block → task_block task block.
Proof.
  intros (d & title & sub_steps & -> & Ht & _ & -> & Hall).
  exists title. eexists _, _, sub_steps. split_and!; try done.
  eapply Forall2_impl; [exact Hall|].
  intros sub step (sub_title & Hst & ->). by exists sub_title.
Qed.

(** C1.  When [plan_execution] returns a plan, its steps are the tasks' blocks
    one after the other in the manifest's task order, and the block of a task
    is its CreateTask step, then its StartWorkspace step, then one CreateTask
    step per subtask in declared order, so that no subtask has a
    StartWorkspace step.  On a manifest typed as the data model has it,
    [plan_execution] does return a plan. *)
Theorem plan_steps_in_task_order (manifest : dict) :
  (well_typed_manifest manifest = true →
   ∃ plan, plan_execution container_repr manifest = Ok plan) ∧
  ∀ plan, plan_execution container_repr manifest = Ok plan →
    ∃ blocks, plan_steps plan = concat blocks ∧
              Forall2 task_block (manifest_tasks manifest) blocks.
Proof.
  split; [apply plan_execution_total|].
  intros plan (dd & de & dr & db & blocks & _ & _ & _ & _ & _ & Hb & ->)
    %plan_execution_inv.
  exists blocks. split; [done|].
  eapply Forall2_impl; [exact Hb|]. intros ??. apply planned_task_block.
Qed.

(** C4.  A plan returned for a manifest with N top-level tasks and S subtask
    entries has exactly 2N + S steps, and its summary has total_tasks = N,
    total_subtasks = S and total_workspaces = N.  On a manifest typed as the
    data model has it, [plan_execution] does return a plan. *)
Theorem plan_size (manifest : dict) :
  (well_typed_manifest manifest = true →
   ∃ plan, plan_execution container_repr manifest = Ok plan) ∧
  ∀ plan, plan_execution container_repr manifest = Ok plan →
    length (plan_steps plan)
    = (2 * task_count manifest + subtask_count manifest)%nat ∧
    summary_count "total_tasks" plan = Some (Z.of_nat (task_count manifest)) ∧
    summary_count "total_subtasks" plan
    = Some (Z.of_nat (subtask_count manifest)) ∧
    summary_count "total_workspaces" plan
    = Some (Z.of_nat (task_count manifest)).
Proof.
  split; [apply plan_execution_total|].
  intros plan (dd & de & dr & db & blocks & _ & _ & _ & _ & _ & Hb & ->)
    %plan_execution_inv.
  split_and!; try done.
  unfold plan_steps. simpl. apply (planned_blocks_length _ _ _ _ _ Hb).
Qed.

(** C8.  In a plan returned for a manifest, the StartWorkspace steps are one
    per task, in task order, and the step of a task carries the executor,
    repo and base branch resolved task-level value, else manifest default,
    else "claude-code", the empty repo and "main".  On a manifest typed as
    the data model has it, [plan_execution] does return a plan. *)
Theorem workspace_steps_resolved (manifest : dict) :
  (well_typed_manifest manifest = true →
   ∃ plan, plan_execution container_repr manifest = Ok plan) ∧
  ∀ plan, plan_execution container_repr manifest = Ok plan →
    Forall2 (λ task step,
               is_Some (field "title" task) ∧
               is_start_workspace (default JNone (field "title" task)) step ∧
               field "executor" step
               = Some (resolved manifest task "executor" (JStr "claude-code")) ∧
               field "repo" step
               = Some (resolved manifest task "repo" (JStr "")) ∧
               field "base_branch" step
               = Some (resolved manifest task "base_branch" (JStr "main")))
            (manifest_tasks manifest) (workspace_steps plan).
Proof.
  split; [apply plan_execution_total|].
  intros plan (dd & de & dr & db & blocks & Hdd & -> & -> & -> & _ & Hb & ->)
    %plan_execution_inv.
  unfold workspace_steps, plan_steps. simpl.
  eapply Forall2_impl; [exact (planned_workspace_steps _ _ _ _ _ Hb)|].
  intros task step (d & title & -> & Ht & ->).
  unfold resolved. rewrite Hdd. simpl. rewrite Ht. simpl.
  unfold dict_get. split_and!; try done; by eexists.
Qed.

(** The planner's output is what the executor expects: from a manifest whose
    titles are strings it makes well-formed steps only. *)
Lemma planned_well_formed de dr db task block :
  planned container_repr de dr db task block →
  str_titled_task task = true →
  forallb well_formed_step block = true.
Proof.
  intros (d & title & sub_steps & -> & Ht & _ & -> & Hall).
  unfold str_titled_task. simpl. rewrite Ht.
  destruct title as [[| | |t]| |]; try done. intros Hsubs. simpl.
  induction Hall as [|sub step subs sub_steps (st & Hst & ->) _ IH];
    simpl in *; [done|].
  apply andb_prop in Hsubs as [Hsub Hsubs]. rewrite (IH Hsubs), andb_true_r.
  destruct sub as [[]| |ds]; simplify_eq/=; try done.
Qed.

Lemma plan_execution_well_formed manifest plan :
  plan_execution container_repr manifest = Ok plan →
  str_titled manifest = true →
  forallb well_formed_step (plan_steps plan) = true.
Proof.
  intros (dd & de & dr & db & blocks & _ & _ & _ & _ & _ & Hb & ->)
    %plan_execution_inv.
  unfold str_titled, plan_steps. simpl.
  induction Hb as [|task block tasks blocks Hblock _ IH]; simpl; [done|].
  intros [Htask Htasks]%andb_prop. rewrite forallb_app.
  by rewrite (planned_well_formed _ _ _ _ _ Hblock Htask), (IH Htasks).
Qed.

End PlannerFacts.

Lemma plan_steps_in_task_order_witness :
  ∃ plan blocks,
    plan_execution (λ _, "") PARENT_MANIFEST = Ok plan ∧
    plan_steps plan = concat blocks ∧
    Forall2 task_block (manifest_tasks PARENT_MANIFEST) blocks.
Proof.
  destruct (plan_steps_in_task_order (λ _, "") PARENT_MANIFEST) as [Hret Hplan].
  destruct (Hret eq_refl) as [plan Hp].
  destruct (Hplan plan Hp) as (blocks & Hsteps & Hblocks).
  by exists plan, blocks.
Defined.

Lemma plan_size_witness :
  ∃ plan,
    plan_execution (λ _, "") PARENT_MANIFEST = Ok plan ∧
    length (plan_steps plan) = 6%nat ∧
    summary_count "total_tasks" plan = Some 2 ∧
    summary_count "total_subtasks" plan = Some 2 ∧
    summary_count "total_workspaces" plan = Some 2.
Proof.
  destruct (plan_size (λ _, "") PARENT_MANIFEST) as [Hret Hplan].
  destruct (Hret eq_refl) as [plan Hp].
  exists plan. split; [exact Hp|]. exact (Hplan plan Hp).
Defined.

Lemma workspace_steps_resolved_witness :
  ∃ plan first second,
    plan_execution (λ _, "") PARENT_MANIFEST = Ok plan ∧
    workspace_steps plan = [first; second] ∧
    field "executor" first = Some (JStr "claude-code") ∧
    field "executor" second = Some (JStr "codex") ∧
    field "repo" second = Some (JStr "repo-uuid-123") ∧
    field "base_branch" second = Some (JStr "main").
Proof.
  destruct (workspace_steps_resolved (λ _, "") PARENT_MANIFEST) as [Hret Hplan].
  destruct (Hret eq_refl) as [plan Hp].
  pose proof (Hplan plan Hp) as Hall.
  apply Forall2_cons_inv_l in Hall
    as (first & rest & (_ & _ & He1 & _) & Hall & Hws).
  apply Forall2_cons_inv_l in Hall
    as (second & rest' & (_ & _ & He2 & Hr2 & Hb2) & Hall & ->).
  apply Forall2_nil_inv_l in Hall as ->.
  by exists plan, first, second.
Defined.

(** ** Executor *)

Lemma eq_str_true v s : eq_str v s = true → v = JStr s.
Proof.
  destruct v as [[]| |]; simpl; try done. by intros ->%bool_decide_eq_true.
Qed.

Section ExecutorFacts.
Context {C : Type} (client : Client C).

(** A well-formed step is attempted: one call goes to the client and one
    result is appended, whatever the client answers. *)
Lemma exec_step_well_formed project_id step st log :
  well_formed_step step = true →
  ∃ r table' c' call,
    exec_step client project_id step st
    = Ok {| results := results st ++ [r];
            title_to_task_id := table'; conn := c' |} ∧
    exec_step (recording client) project_id step (with_log st log)
    = Ok {| results := results st ++ [r];
            title_to_task_id := table'; conn := (c', log ++ [call]) |} ∧
    result_of step r ∧ call_of project_id step call.
Proof.
  unfold well_formed_step, action_is, has_field. intros Hwf.
  destruct step as [| |d]; try done. simpl in Hwf.
  destruct (dict_lookup "title" d) as [[[| | |t]| |]|] eqn:Ht; try done.
  destruct (dict_lookup "action" d) as [a|] eqn:Ha; try done.
  unfold exec_step, error_result, result_of, settled. simpl. rewrite Ha. simpl.
  destruct (eq_str a "create_task") eqn:Hc.
  - apply eq_str_true in Hc as ->. simpl in Hwf.
    destruct (dict_lookup "description" d) as [description|] eqn:Hd; try done.
    unfold try_create_task. simpl. rewrite Ht, Hd.
    destruct (create_task client project_id (JStr t) description (conn st))
      as [[resp|e] c'] eqn:Hcall; simpl; rewrite ?Ht; simpl.
    + destruct resp as [a|l|resp]; simpl; rewrite ?Ht; simpl;
        (eexists _, _, _, (create_task_call _ _ _);
         split_and!; [reflexivity..| |]; simpl; rewrite ?Ha, ?Ht, ?Hd; auto).
    + eexists _, _, _, (create_task_call _ _ _).
      split_and!; [reflexivity..| |]; simpl; rewrite ?Ha, ?Ht, ?Hd; auto.
  - simpl in Hwf. destruct (eq_str a "start_workspace") eqn:Hw; try done.
    apply eq_str_true in Hw as ->. simpl in Hwf.
    destruct (dict_lookup "executor" d) as [executor|] eqn:He; try done.
    rewrite Ht. simpl. unfold try_start_workspace. simpl. rewrite Ht, He.
    destruct (start_workspace client
                (default (JStr "") (title_to_task_id st !! SStr t)) (JStr t)
                executor (dict_get "repo" (JStr "") d)
                (dict_get "base_branch" (JStr "main") d) (conn st))
      as [[resp|e] c'] eqn:Hcall; simpl; rewrite ?Ht; simpl.
    + destruct resp as [a|l|resp]; simpl; rewrite ?Ht; simpl;
        (eexists _, _, _, (start_workspace_call _ _ _ _ _);
         split_and!; [reflexivity..| |]; simpl; rewrite ?Ha, ?Ht, ?He; auto).
    + eexists _, _, _, (start_workspace_call _ _ _ _ _).
      split_and!; [reflexivity..| |]; simpl; rewrite ?Ha, ?Ht, ?He; auto.
Qed.

Lemma run_well_formed project_id steps : ∀ st log,
  forallb well_formed_step steps = true →
  ∃ rs table' c' calls,
    for_each (exec_step client project_id) steps st
    = Ok {| results := results st ++ rs;
            title_to_task_id := table'; conn := c' |} ∧
    for_each (exec_step (recording client) project_id) steps (with_log st log)
    = Ok {| results := results st ++ rs;
            title_to_task_id := table'; conn := (c', log ++ calls) |} ∧
    Forall2 result_of steps rs ∧ Forall2 (call_of project_id) steps calls.
Proof.
  induction steps as [|step steps IH]; intros st log Hwf; simpl.
  - exists [], (title_to_task_id st), (conn st), []. rewrite !app_nil_r.
    destruct st; split_and!; done.
  - apply andb_prop in Hwf as [Hstep Hsteps].
    destruct (exec_step_well_formed project_id step st log Hstep)
      as (r & table1 & c1 & call & -> & -> & Hr & Hcall). simpl.
    destruct (IH {| results := results st ++ [r];
                    title_to_task_id := table1; conn := c1 |}
                 (log ++ [call]) Hsteps)
      as (rs & table' & c' & calls & Hrun & Hrec & Hrs & Hcalls).
    exists (r :: rs), table', c', (call :: calls).
    unfold with_log in Hrec. simpl in Hrun, Hrec.
    rewrite <-!app_assoc in Hrun, Hrec. simpl in Hrun, Hrec.
    replace (log ++ call :: calls) with ((log ++ [call]) ++ calls)
      by (by rewrite <-app_assoc).
    split_and!; try done; by constructor.
Qed.

Lemma try_create_task_Ok project_id action step table c table' res c' :
  try_create_task client project_id action step table c
  = (Ok (table', res), c') →
  ∃ title task_id resp key,
    field "title" step = Some title ∧
    hash_key title = Ok key ∧
    table' = <[key := task_id]> table ∧
    res = JDict [("action", action); ("title", title);
                 ("status", JStr "success"); ("task_id", task_id);
                 ("detail", resp)].
Proof.
  unfold try_create_task.
  destruct (getitem step "title") as [title|] eqn:Ht; [|by intros [=]].
  destruct (getitem step "description") as [description|]; [|by intros [=]].
  destruct (create_task client project_id title description c) as [r c1].
  intros [= H ->]. do 4 inv_bind H. simplify_eq.
  exists title. eexists _, _, _. split_and!; try done.
  destruct step as [| |d]; simplify_eq/=.
  by destruct (dict_lookup "title" d); simplify_eq.
Qed.

Lemma try_start_workspace_Ok action step task_id c res c' :
  try_start_workspace client action step task_id c = (Ok res, c') →
  field "status" res = Some (JStr "success").
Proof.
  unfold try_start_workspace.
  destruct (getitem step "title") as [title|]; [|by intros [=]].
  destruct (getitem step "executor") as [executor|]; [|by intros [=]].
  destruct (get step "repo" (JStr "")) as [repo|]; [|by intros [=]].
  destruct (get step "base_branch" (JStr "main")) as [branch|]; [|by intros [=]].
  destruct (start_workspace client task_id title executor repo branch c)
    as [r c1].
  intros [= H ->]. do 2 inv_bind H. by simplify_eq.
Qed.

Lemma error_result_Ok action step e res :
  error_result action step e = Ok res →
  field "status" res = Some (JStr "error").
Proof. unfold error_result. intros H. inv_bind H. by simplify_eq. Qed.

(** What one turn of the loop does to the state, for any step at all: nothing
    (an action the loop does not know), one more result, or, when a
    CreateTask step succeeds, one more result and its identifier filed under
    the title. *)
Lemma exec_step_inv project_id step st st' :
  exec_step client project_id step st = Ok st' →
  st' = st ∨
  (∃ r c', st' = {| results := results st ++ [r];
                    title_to_task_id := title_to_task_id st; conn := c' |} ∧
           settled r ∧
           (field "status" r = Some (JStr "success") →
            field "action" r ≠ Some (JStr "create_task"))) ∨
  (∃ title key task_id resp c',
     field "title" step = Some title ∧
     hash_key title = Ok key ∧
     st' = {| results :=
                results st ++ [JDict [("action", JStr "create_task");
                                      ("title", title);
                                      ("status", JStr "success");
                                      ("task_id", task_id);
                                      ("detail", resp)]];
              title_to_task_id := <[key := task_id]> (title_to_task_id st);
              conn := c' |}).
Proof.
  unfold exec_step. intros H. apply bind_Ok in H as (action & Ha & H).
  destruct (eq_str action "create_task") eqn:Hc.
  - apply eq_str_true in Hc as ->.
    destruct (try_create_task _ _ _ _ _ _) as [[[table' res]|e] c'] eqn:Htry.
    + apply try_create_task_Ok in Htry
        as (title & task_id & resp & key & Ht & Hk & -> & ->).
      simplify_eq. right; right. by exists title, key, task_id, resp, c'.
    + apply bind_Ok in H as (res & Hres & H). simplify_eq.
      right; left. exists res, c'. pose proof (error_result_Ok _ _ _ _ Hres) as He.
      split_and!; [done|by right|]. rewrite He. done.
  - destruct (eq_str action "start_workspace") eqn:Hw; [|left; by simplify_eq].
    apply eq_str_true in Hw as ->.
    apply bind_Ok in H as (title & Ht & H). apply bind_Ok in H as (key & Hk & H).
    destruct (try_start_workspace _ _ _ _ _) as [[res|e] c'] eqn:Htry.
    + simplify_eq. right; left. exists res, c'.
      pose proof Htry as Hst%try_start_workspace_Ok.
      split_and!; [done|by left|]. intros _.
      revert Htry. unfold try_start_workspace.
      repeat (match goal with
              | |- context [match ?x with Ok _ => _ | Raise _ => _ end] =>
                  destruct x; [|by intros [=]]
              end).
      destruct (start_workspace _ _ _ _ _ _ _) as [r c1].
      intros [= H ->]. do 2 inv_bind H. by simplify_eq.
    + apply bind_Ok in H as (res & Hres & H). simplify_eq.
      right; left. exists res, c'. pose proof (error_result_Ok _ _ _ _ Hres) as He.
      split_and!; [done|by right|]. rewrite He. done.
Qed.

(** Every result of a run is a success or an error. *)
Lemma run_settled project_id steps : ∀ st st',
  for_each (exec_step client project_id) steps st = Ok st' →
  Forall settled (results st) → Forall settled (results st').
Proof.
  induction steps as [|step steps IH]; intros st st' H Hst; simpl in H.
  - by simplify_eq.
  - apply bind_Ok in H as (st1 & Hstep & H). apply (IH _ _ H).
    apply exec_step_inv in Hstep
      as [->|[(r & c' & -> & Hr & _)|(t & k & i & resp & c' & _ & _ & ->)]];
      simpl; [done|..]; apply Forall_app; split; try done;
      constructor; [done|constructor|by left|constructor].
Qed.

Lemma execute_plan_settled plan project_id c results c' :
  execute_plan client plan project_id c = Ok (results, c') →
  Forall settled results.
Proof.
  unfold execute_plan. intros H. do 3 inv_bind H. simplify_eq.
  eapply run_settled; [done|]. constructor.
Qed.

(** C2.  On a plan whose steps are CreateTask and StartWorkspace steps
    titled with text, as the data model has them, [execute_plan] returns,
    whatever the client's calls return or raise: its results are one per
    step, in the steps' order, each tagged with its step's action and title
    and marked success or error; and the client has received one call per
    step, in the same order.  The results are those of the run that keeps no
    record of the calls. *)
Theorem execute_plan_one_result_per_step
    (plan project_id : json) (steps : list json) (c : C) :
  field "steps" plan = Some (JList steps) →
  forallb well_formed_step steps = true →
  ∃ results c' calls,
    execute_plan client plan project_id c = Ok (results, c') ∧
    execute_plan (recording client) plan project_id (c, [])
    = Ok (results, (c', calls)) ∧
    Forall2 result_of steps results ∧
    Forall2 (call_of project_id) steps calls.
Proof.
  intros Hsteps Hwf. destruct plan as [| |p]; try done. simpl in Hsteps.
  unfold execute_plan. simpl. rewrite Hsteps. simpl.
  destruct (run_well_formed project_id steps (initial_state c) [] Hwf)
    as (rs & table' & c' & calls & Hrun & Hrec & Hrs & Hcalls).
  exists rs, c', calls. unfold with_log, initial_state in *. simpl in *.
  rewrite Hrun, Hrec. done.
Qed.

End ExecutorFacts.

Lemma execute_plan_one_result_per_step_witness :
  ∃ results calls,
    execute_plan (recording rejecting_second) twin_plan (JStr "proj-1")
                 ((), [])
    = Ok (results, ((), calls)) ∧
    Forall2 result_of (plan_steps twin_plan) results ∧
    Forall2 (call_of (JStr "proj-1")) (plan_steps twin_plan) calls ∧
    field "status" <$> results
    = [Some (JStr "success"); Some (JStr "success");
       Some (JStr "error"); Some (JStr "success")] ∧
    length calls = 4%nat.
Proof.
  destruct (execute_plan_one_result_per_step rejecting_second twin_plan
              (JStr "proj-1") (plan_steps twin_plan) () eq_refl eq_refl)
    as (results & [] & calls & _ & Hrec & Hrs & Hcalls).
  exists results, calls. split_and!; try done.
  - vm_compute in Hrec. by injection Hrec as <- _.
  - vm_compute in Hrec. by injection Hrec as _ <-.
Defined.

(** A title that is not text passes validation and planning, and the run
    then stops short: the table is read before the [try] of the
    StartWorkspace step, a list cannot be looked up, and the [TypeError]
    leaves [execute_plan] with three of the four steps not accounted for. *)
Lemma execute_plan_stops_at_list_title :
  ∃ plan steps,
    (∀ o, validate_manifest o LIST_TITLE_MANIFEST = Ok []) ∧
    plan_execution (λ _, "") LIST_TITLE_MANIFEST = Ok plan ∧
    field "steps" plan = Some (JList steps) ∧
    length steps = 4%nat ∧
    execute_plan rejecting_all plan (JStr "proj-1") ()
    = Raise (Exn "TypeError" "unhashable type: 'list'") ∧
    execute_plan mock_client plan (JStr "proj-1") ()
    = Raise (Exn "TypeError" "unhashable type: 'list'") ∧
    ¬ ∃ results c',
        execute_plan mock_client plan (JStr "proj-1") () = Ok (results, c') ∧
        Forall2 result_of steps results.
Proof.
  eexists _, _. split_and!.
  - by intros [].
  - reflexivity.
  - reflexivity.
  - reflexivity.
  - reflexivity.
  - reflexivity.
  - by intros (results & c' & [=] & _).
Qed.

(** The planner and the executor together: for a manifest typed as the data
    model has it and titled with strings, the run returns 2N + S results. *)
Lemma planned_run_returns {C : Type} (client : Client C)
    (container_repr : json → string) (manifest : dict) (project_id : json)
    (c : C) :
  well_typed_manifest manifest = true →
  str_titled manifest = true →
  ∃ plan results c',
    plan_execution container_repr manifest = Ok plan ∧
    execute_plan client plan project_id c = Ok (results, c') ∧
    length results
    = (2 * task_count manifest + subtask_count manifest)%nat.
Proof.
  intros Hwt Hst.
  destruct (plan_execution_total container_repr manifest Hwt) as [plan Hplan].
  pose proof (plan_execution_well_formed _ _ _ Hplan Hst) as Hwf.
  pose proof Hplan
    as (dd & de & dr & db & blocks & _ & _ & _ & _ & _ & Hb & ->)
         %plan_execution_inv.
  unfold plan_steps in Hwf. simpl in Hwf.
  destruct (run_well_formed client project_id (concat blocks)
              (initial_state c) [] Hwf)
    as (rs & table' & c' & calls & Hrun & _ & Hrs & _).
  eexists _, rs, c'. split; [exact Hplan|].
  unfold execute_plan. simpl. rewrite Hrun. simpl. split; [done|].
  rewrite <-(Forall2_length _ _ _ Hrs).
  apply (planned_blocks_length _ _ _ _ _ _ Hb).
Qed.

(** Outside the data model the loop is not that forgiving.  A step whose
    action it does not know leaves no result behind, and a title that is a
    list stops the run at the StartWorkspace step, where the table is read
    before the [try]. *)
Example execute_plan_unknown_action :
  execute_plan mock_client
    (JDict [("steps", JList [JDict [("action", JStr "archive_task");
                                    ("title", JStr "Build the widget")]])])
    (JStr "proj-1") ()
  = Ok ([], ()).
Proof. reflexivity. Qed.

Example execute_plan_list_title :
  execute_plan mock_client
    (JDict [("steps",
             JList [start_workspace_step (JList [JStr "Build"; JStr "widget"])
                      (JStr "claude-code") (JStr "") (JStr "main")])])
    (JStr "proj-1") ()
  = Raise (Exn "TypeError" "unhashable type: 'list'").
Proof. reflexivity. Qed.

(** ** Reporter, continued *)

(** C7, counterexample.  A dry run reports every step as skipped; the report
    built from these results counts no success and no failure for two
    results. *)
Lemma dry_run_counts_do_not_add_up :
  ∃ results report,
    dry_run_results sample_plan = Ok results ∧
    build_execution_report "2026-01-01T00:00:00+00:00" SAMPLE_MANIFEST
      sample_plan results (JStr "proj-1") = Ok report ∧
    ¬ counts_add_up report results.
Proof.
  eexists _, _. split_and!; [reflexivity..|].
  intros (s & f & Hs & Hf & Hsum). vm_compute in Hs, Hf. by simplify_eq.
Qed.

(** C7, amended.  In a report that [build_execution_report] returns,
    [succeeded] and [failed] are non-negative and
    [succeeded + failed <= len(results) == total_steps]; they add up to
    [len(results)] when every result is a success or an error, as is every
    list of results that [execute_plan] returns. *)
Theorem report_counts_bounded (now : string) (manifest : dict)
    (plan : json) (results : list json) (project_id report : json) :
  build_execution_report now manifest plan results project_id = Ok report →
  ∃ s f,
    summary_count "succeeded" report = Some s ∧
    summary_count "failed" report = Some f ∧
    summary_count "total_steps" report = Some (Z.of_nat (length results)) ∧
    0 ≤ s ∧ 0 ≤ f ∧ s + f ≤ Z.of_nat (length results) ∧
    (Forall settled results → s + f = Z.of_nat (length results)) ∧
    (∀ (C : Type) (client : Client C) (plan' project_id' : json) (c c' : C),
       execute_plan client plan' project_id' c = Ok (results, c') →
       s + f = Z.of_nat (length results)).
Proof.
  intros (s & f & Hs & Hf & Hrs & Hrf & Hlen)%build_execution_report_summary.
  destruct (count_success_error results s f Hs Hf) as (? & ? & ? & Heq).
  exists s, f. split_and!; try done.
  intros C client plan' project_id' c c' Hrun. apply Heq.
  by eapply execute_plan_settled.
Qed.

Lemma report_counts_bounded_witness :
  ∃ results report,
    execute_plan mock_client sample_plan (JStr "proj-1") () = Ok (results, ()) ∧
    build_execution_report "2026-01-01T00:00:00+00:00" SAMPLE_MANIFEST
      sample_plan results (JStr "proj-1") = Ok report ∧
    summary_count "succeeded" report = Some 2 ∧
    summary_count "failed" report = Some 0 ∧
    summary_count "total_steps" report = Some 2.
Proof.
  eexists _, _. split; [reflexivity|].
  match goal with
  | |- ?run = Ok ?report ∧ _ =>
      let H := fresh in
      assert (run = Ok report) as H by reflexivity;
      split; [exact H|];
      destruct (report_counts_bounded _ _ _ _ _ _ H)
        as (s & f & Hs & Hf & Hn & _)
  end.
  split_and!; reflexivity.
Defined.

(** A report is built whenever every result has a status and the plan a
    summary with its two counts. *)
Lemma build_execution_report_returns now manifest plan results project_id :
  Forall (λ r, is_Some (field "status" r)) results →
  (∃ summary, field "summary" plan = Some summary ∧
              is_Some (field "total_tasks" summary) ∧
              is_Some (field "total_workspaces" summary)) →
  ∃ report,
    build_execution_report now manifest plan results project_id = Ok report.
Proof.
  intros Hst (summary & Hsum & [tt Htt] & [tw Htw]).
  assert (∀ status, ∃ n, count_where (has_status status) results = Ok n) as Hc.
  { intros status. induction Hst as [|r rest [v Hv] _ [n IH]]; simpl; [eauto|].
    assert (has_status status r = Ok (eq_str v status)) as ->.
    { destruct r as [| |d]; simplify_eq/=. unfold has_status. simpl.
      by rewrite Hv. }
    simpl. rewrite IH. simpl. eauto. }
  unfold build_execution_report.
  destruct (Hc "success") as [s ->], (Hc "error") as [f ->]. simpl.
  destruct plan as [| |p]; simplify_eq/=. rewrite Hsum. simpl.
  destruct summary as [| |sm]; simplify_eq/=. rewrite Htt, Htw. simpl. eauto.
Qed.

(** ** MCP Client *)

Section VKMcpClientFacts.
Context {T : Type}.
Variable _call_tool : string → json → T → result json * T.
Variable str_upper : string → string.

Abbreviation start_workspace :=
  (VKMcpClient.start_workspace _call_tool str_upper).

(** C9.  [start_workspace] given an empty task identifier sends arguments
    without [issue_id]; given an empty [repo_id] it sends [repos] as the
    empty list; in both cases it raises nothing of its own: its outcome is
    that of the remote call. *)
Theorem start_workspace_tolerates_empty
    (title base_branch : json) (executor : string) (t : T) :
  (∀ repo_id, ∃ args,
     start_workspace (JStr "") title (JStr executor) repo_id base_branch t
     = _call_tool "start_workspace_session" (JDict args) t ∧
     dict_lookup "issue_id" args = None) ∧
  (∀ task_id, ∃ args,
     start_workspace task_id title (JStr executor) (JStr "") base_branch t
     = _call_tool "start_workspace_session" (JDict args) t ∧
     dict_lookup "repos" args = Some (JList [])) ∧
  start_workspace (JStr "") title (JStr executor) (JStr "") base_branch t
  = _call_tool "start_workspace_session"
      (JDict [("title", title); ("executor", JStr (str_upper executor));
              ("repos", JList [])]) t.
Proof.
  split_and!.
  - intros repo_id. eexists. split; [reflexivity|]. done.
  - intros task_id. unfold VKMcpClient.start_workspace,
      VKMcpClient.start_workspace_args. simpl.
    eexists. split; [reflexivity|].
    destruct (truthy task_id); done.
  - reflexivity.
Qed.

(** C10.  The executor that [start_workspace] sends is the given executor
    string in upper case, for every call: "claude-code" goes out as
    "CLAUDE-CODE", and no valid executor kind goes out under the name the
    validator knows it by. *)
Theorem start_workspace_sends_upper_case :
  (∀ s, is_ascii s = true → str_upper s = ascii_upper s) →
  (∀ task_id title executor repo_id base_branch t, ∃ args,
     start_workspace task_id title (JStr executor) repo_id base_branch t
     = _call_tool "start_workspace_session" (JDict args) t ∧
     dict_lookup "executor" args = Some (JStr (str_upper executor))) ∧
  str_upper "claude-code" = "CLAUDE-CODE" ∧
  (∀ executor, executor ∈ VALID_EXECUTORS →
     str_upper executor = ascii_upper executor ∧
     str_upper executor ∉ VALID_EXECUTORS).
Proof.
  intros Hupper. split_and!.
  - intros. unfold VKMcpClient.start_workspace,
      VKMcpClient.start_workspace_args. simpl.
    eexists. split; [reflexivity|].
    destruct (truthy task_id); done.
  - by rewrite Hupper.
  - intros executor Hin. unfold VALID_EXECUTORS in Hin.
    rewrite !elem_of_union, !elem_of_singleton in Hin.
    assert (is_ascii executor = true ∧
            bool_decide (ascii_upper executor ∉ VALID_EXECUTORS) = true)
      as [Ha Hout] by (destruct_or!; subst; split; vm_compute; reflexivity).
    rewrite Hupper by done. split; [done|]. by apply bool_decide_eq_true in Hout.
Qed.

End VKMcpClientFacts.

Lemma start_workspace_sends_upper_case_witness :
  VKMcpClient.start_workspace
    (λ _ args (sent : list json), (Ok (JDict []), sent ++ [args])) ascii_upper
    (JStr "task-001") (JStr "Build the widget") (JStr "claude-code")
    (JStr "") (JStr "main") []
  = (Ok (JDict []),
     [JDict [("title", JStr "Build the widget");
             ("executor", JStr "CLAUDE-CODE"); ("repos", JList []);
             ("issue_id", JStr "task-001")]]) ∧
  ascii_upper "claude-code" = "CLAUDE-CODE".
Proof.
  split; [reflexivity|].
  exact (proj1 (proj2 (start_workspace_sends_upper_case (T := list json)
    (λ _ args sent, (Ok (JDict []), sent ++ [args])) ascii_upper
    (λ s _, eq_refl)))).
Defined.

(** ** Executor: the title-to-identifier table *)

Section TableFacts.
Context {C : Type} (client : Client C).




Lemma for_each_two {A S : Type} (body : A → S → result S) x y s s1 s2 :
  body x s = Ok s1 → body y s1 = Ok s2 → for_each body [x; y] s = Ok s2.
Proof. intros H1 H2. simpl. rewrite H1. simpl. by rewrite H2. Qed.


End TableFacts.



(** * Further properties *)

(** ** Validator: what it accepts and what it reports *)

Lemma check_required_present keys manifest :
  (∀ key, key ∈ keys → dict_has key manifest = true) →
  check_required keys manifest = [].
Proof.
  intros Hall. unfold check_required.
  induction keys as [|key keys IH]; [done|].
  rewrite filter_cons. rewrite Hall by set_solver.
  rewrite decide_False by done. apply IH. intros k Hk. apply Hall. set_solver.
Qed.

Lemma check_task_checked i task errors :
  task_checked task → check_task i task errors = Ok errors.
Proof.
  intros (d & -> & Ht & He & Hp). unfold check_task. rewrite Ht.
  assert (∀ key allowed msg,
            (∀ v, dict_lookup key d = Some v → ∃ s, v = JStr s ∧ s ∈ allowed) →
            check_member key allowed msg d errors = Ok errors) as Hm.
  { intros key allowed msg Hkey. unfold check_member.
    destruct (dict_lookup key d) as [v|]; [|done].
    destruct (Hkey v eq_refl) as (s & -> & Hs). simpl.
    by rewrite bool_decide_eq_true_2. }
  rewrite (Hm _ _ _ He). simpl. by apply Hm.
Qed.

Lemma check_tasks_checked tasks : ∀ i errors,
  Forall task_checked tasks → check_tasks i tasks errors = Ok errors.
Proof.
  induction tasks as [|task rest IH]; intros i errors Hall; simpl; [done|].
  apply Forall_cons in Hall as [Htask Hrest].
  rewrite (check_task_checked _ _ _ Htask). simpl. by apply IH.
Qed.

(** X1.  Validation has no other ground for complaint than the ones it
    states: a manifest with the three keys, a non-empty list of tasks, each
    a dict with a title and, where present, a valid executor and priority, is
    accepted, in whatever order the required keys are visited. *)
Theorem validate_manifest_accepts_checked (o : key_order) (manifest : dict) :
  manifest_checked manifest → validate_manifest o manifest = Ok [].
Proof.
  intros (Hv & Hp & tasks & Ht & Hne & Hall). unfold validate_manifest.
  rewrite check_required_present.
  - rewrite Ht. destruct tasks as [|task rest]; [done|].
    by apply check_tasks_checked.
  - intros key Hkey.
    assert (dict_has "tasks" manifest = true) as Htasks
      by (unfold dict_has; by rewrite Ht).
    destruct o; set_unfold; destruct_or!; by subst.
Qed.

Lemma validate_manifest_accepts_checked_witness :
  validate_manifest PTV PARENT_MANIFEST = Ok [].
Proof.
  apply validate_manifest_accepts_checked.
  split_and!; [done..|]. eexists. split_and!; [done..|].
  repeat constructor;
    (eexists; split_and!; [done..| |]; intros v [= <-] || intros v [=]);
    eexists; split; [done|]; set_solver.
Defined.

(** X2.  A required key that the manifest lacks is named in the messages,
    whenever validation returns and whatever else it has found. *)
Theorem validate_manifest_reports_missing_key
    (o : key_order) (manifest : dict) (key : string) (errors : list string) :
  key ∈ ["version"; "tasks"; "project"] →
  dict_has key manifest = false →
  validate_manifest o manifest = Ok errors →
  missing_key_msg key ∈ errors.
Proof.
  intros Hkey Hmiss Hval.
  assert (missing_key_msg key
          ∈ check_required (REQUIRED_MANIFEST_KEYS o) manifest) as Hin.
  { unfold check_required. apply list_elem_of_fmap. exists key. split; [done|].
    apply list_elem_of_filter. split; [done|].
    apply list_elem_of_In in Hkey. apply list_elem_of_In.
    destruct o; simpl in *; tauto. }
  unfold validate_manifest in Hval.
  destruct (dict_lookup "tasks" manifest) as [[a|[|task rest]|d]|];
    simplify_eq; try done; try (apply elem_of_app; by left).
  apply check_tasks_grows in Hval as (added & -> & _).
  apply elem_of_app. by left.
Qed.

Lemma validate_manifest_reports_missing_key_witness :
  "Missing required key: 'project'"
  ∈ ["Missing required key: 'project'"; "Task 0 is not a dict"].
Proof.
  apply (validate_manifest_reports_missing_key VTP
           [("version", JStr "1.0.0"); ("tasks", JList [JNone])] "project");
    [set_solver|reflexivity|reflexivity].
Defined.

(** ** Planner: defaults, inheritance and edge cases *)

Section PlannerMore.
Variable container_repr : json → string.

(** X3.  In a returned plan, the CreateTask step of a task carries the task's
    description, priority and tags, defaulting to "", "Medium" and the empty
    list; every subtask step inherits the priority and tags of its parent's
    step, has the parent's title as [parent_title] and the description
    "Subtask of: " followed by that title. *)
Theorem plan_subtasks_inherit (manifest : dict) (plan : json) :
  plan_execution container_repr manifest = Ok plan →
  ∃ blocks,
    plan_steps plan = concat blocks ∧
    Forall2 (λ task block,
               ∃ create start sub_steps,
                 block = create :: start :: sub_steps ∧
                 task_step_defaults task create ∧
                 Forall (subtask_inherits container_repr task create) sub_steps)
            (manifest_tasks manifest) blocks.
Proof.
  intros (dd & de & dr & db & blocks & _ & _ & _ & _ & _ & Hb & ->)
    %plan_execution_inv.
  exists blocks. split; [done|].
  eapply Forall2_impl; [exact Hb|].
  intros task block (d & title & sub_steps & -> & Ht & _ & -> & Hall).
  eexists _, _, sub_steps. split; [done|]. split.
  - unfold task_step_defaults, dict_get. simpl.
    split_and!; f_equal; by destruct (dict_lookup _ d).
  - clear -Hall Ht.
    induction Hall as [|sub step subs sub_steps (st & _ & ->) _ IH];
      constructor; [|done].
    unfold subtask_inherits. simpl. split_and!; try done. by exists title.
Qed.

(** X4.  A manifest without tasks, the key missing or the list empty, is
    planned all the same: the plan has no steps and counts of zero. *)
Theorem plan_execution_no_tasks (manifest : dict) :
  dict_get "tasks" (JList []) manifest = JList [] →
  (∃ dd, manifest_defaults manifest = JDict dd) →
  plan_execution container_repr manifest = Ok empty_plan.
Proof.
  intros Htasks [dd Hdd]. unfold plan_execution.
  fold (manifest_defaults manifest). by rewrite Htasks, Hdd.
Qed.

Lemma for_each_raises {A S : Type} (body : A → S → result S) pre x post s s1 e :
  for_each body pre s = Ok s1 → body x s1 = Raise e →
  for_each body (pre ++ x :: post) s = Raise e.
Proof.
  revert s. induction pre as [|y pre IH]; intros s Hpre Hx; simpl in *.
  - simplify_eq. by rewrite Hx.
  - destruct (body y s) as [s'|]; [|done]. simpl in *. by apply IH.
Qed.

(** X5.  A task entry without a title stops the planner with
    [KeyError('title')], wherever in the list it stands: validation is what
    keeps this from happening. *)
Theorem plan_execution_untitled_task
    (manifest : dict) (pre post : list json) (d : dict) :
  dict_lookup "tasks" manifest = Some (JList (pre ++ JDict d :: post)) →
  forallb well_typed_task pre = true →
  dict_has "title" d = false →
  (∃ dd, manifest_defaults manifest = JDict dd) →
  plan_execution container_repr manifest = Raise (KeyError "title").
Proof.
  intros Htasks Hpre Ht [dd Hdd].
  assert (dict_get "tasks" (JList []) manifest
          = JList (pre ++ JDict d :: post)) as Hget
    by (unfold dict_get; by rewrite Htasks).
  unfold plan_execution. fold (manifest_defaults manifest).
  rewrite Hget, Hdd. simpl.
  destruct (plan_tasks_total container_repr
              (dict_get "executor" (JStr "claude-code") dd)
              (dict_get "repo" (JStr "") dd)
              (dict_get "base_branch" (JStr "main") dd) pre ([], 0) Hpre)
    as [[steps n] Hrun].
  erewrite for_each_raises; [done|exact Hrun|].
  unfold plan_task. simpl. unfold dict_has in Ht.
  by destruct (dict_lookup "title" d).
Qed.

Lemma validated_tasks o manifest :
  validate_manifest o manifest = Ok [] →
  ∃ task rest, dict_lookup "tasks" manifest = Some (JList (task :: rest)) ∧
               Forall task_checked (task :: rest).
Proof.
  unfold validate_manifest. intros H.
  destruct (dict_lookup "tasks" manifest) as [tasks|] eqn:Htasks.
  - destruct tasks as [a|[|task rest]|d];
      try (injection H as H; by apply app_eq_nil in H as [_ ?]).
    apply check_tasks_grows in H as (added & Heq & Hadd).
    symmetry in Heq. apply app_eq_nil in Heq as [_ ->]. eauto.
  - injection H as H. apply check_required_nil in H as (_ & _ & Ht).
    unfold dict_has in Ht. by rewrite Htasks in Ht.
Qed.

(** X6.  Validation and planning together: a manifest that validation
    accepts and whose [defaults] and [subtasks] have the right shape is
    planned, into at least the two steps of its first task. *)
Theorem validated_manifest_plans (o : key_order) (manifest : dict) :
  validate_manifest o manifest = Ok [] →
  typed_for_planning manifest = true →
  ∃ plan, plan_execution container_repr manifest = Ok plan ∧
          (2 ≤ length (plan_steps plan))%nat.
Proof.
  intros (task & rest & Htasks & Hall)%validated_tasks
         [Hdefaults Hsubs]%andb_prop.
  assert (manifest_tasks manifest = task :: rest) as Hmt.
  { unfold manifest_tasks, dict_get. by rewrite Htasks. }
  rewrite Hmt in Hsubs.
  assert (well_typed_manifest manifest = true) as Hwt.
  { unfold well_typed_manifest. rewrite Hdefaults, andb_true_r.
    unfold dict_get. rewrite Htasks.
    clear -Hall Hsubs.
    induction Hall as [|t ts (d & -> & Ht & _) _ IH]; [done|].
    simpl in *. apply andb_prop in Hsubs as [Hs Hss].
    rewrite Ht, Hs. simpl. by apply IH. }
  destruct (plan_execution_total container_repr manifest Hwt) as [plan Hplan].
  exists plan. split; [done|].
  pose proof Hplan
    as (dd & de & dr & db & blocks & _ & _ & _ & _ & _ & Hb & ->)
         %plan_execution_inv.
  unfold plan_steps. simpl.
  rewrite (planned_blocks_length _ _ _ _ _ _ Hb), Hmt. simpl. lia.
Qed.

End PlannerMore.

Lemma plan_subtasks_inherit_witness :
  ∃ plan create start sub,
    plan_execution (λ _, "") TAGGED_MANIFEST = Ok plan ∧
    plan_steps plan = [create; start; sub] ∧
    field "priority" sub = Some (JStr "Urgent") ∧
    field "tags" sub = Some (JList [JStr "feature"]) ∧
    field "description" sub = Some (JStr "Subtask of: Parent").
Proof.
  assert (∃ plan, plan_execution (λ _, "") TAGGED_MANIFEST = Ok plan)
    as [plan Hplan] by (eexists; reflexivity).
  destruct (plan_subtasks_inherit (λ _, "") TAGGED_MANIFEST plan Hplan)
    as (blocks & Hsteps & Hall).
  apply Forall2_cons_inv_l in Hall
    as (block & rest & (create & start & subs & -> & (_ & Hp & Ht) & Hsubs)
        & Hnil & ->).
  apply Forall2_nil_inv_l in Hnil as ->.
  injection Hplan as <-. simpl in Hsteps. rewrite app_nil_r in Hsteps.
  injection Hsteps as <- <- <-.
  apply Forall_cons in Hsubs as [(Hsp & Hst & _ & title & Htitle & Hd) _].
  injection Htitle as <-.
  eexists _, _, _, _. split_and!; [reflexivity..|exact Hd].
Defined.

Lemma plan_execution_no_tasks_witness :
  plan_execution (λ _, "")
    [("version", JStr "1.0.0"); ("project", JStr "Test Project");
     ("tasks", JList [])]
  = Ok empty_plan.
Proof. apply plan_execution_no_tasks; [reflexivity|by eexists]. Defined.

Lemma plan_execution_untitled_task_witness :
  plan_execution (λ _, "")
    [("tasks", JList [JDict [("title", JStr "Build the widget")];
                      JDict [("executor", JStr "claude-code")]])]
  = Raise (KeyError "title").
Proof.
  apply (plan_execution_untitled_task (λ _, "") _
           [JDict [("title", JStr "Build the widget")]] []
           [("executor", JStr "claude-code")]);
    [reflexivity..|by eexists].
Defined.

Lemma validated_manifest_plans_witness :
  ∃ plan, plan_execution (λ _, "") PARENT_MANIFEST = Ok plan ∧
          (2 ≤ length (plan_steps plan))%nat.
Proof.
  apply (validated_manifest_plans (λ _, "") TVP); reflexivity.
Defined.

(** ** Executor: what a run does to any plan *)

Lemma for_each_app_inv {A S : Type} (body : A → S → result S) l1 l2 s s2 :
  for_each body (l1 ++ l2) s = Ok s2 →
  ∃ s1, for_each body l1 s = Ok s1 ∧ for_each body l2 s1 = Ok s2.
Proof.
  revert s. induction l1 as [|x l1 IH]; intros s H; simpl in *; [eauto|].
  apply bind_Ok in H as (s' & Hx & H). rewrite Hx. simpl. by apply IH.
Qed.

Section ExecutorMore.
Context {C : Type} (client : Client C).

(** A run only ever appends to the results, at most one per step. *)
Lemma run_results_grow project_id steps : ∀ st st',
  for_each (exec_step client project_id) steps st = Ok st' →
  ∃ new, results st' = results st ++ new ∧
         (length new ≤ length steps)%nat.
Proof.
  induction steps as [|step steps IH]; intros st st' H; simpl in H.
  - simplify_eq. exists []. by rewrite app_nil_r.
  - apply bind_Ok in H as (st1 & Hstep & H).
    apply IH in H as (new & -> & Hlen).
    apply exec_step_inv in Hstep
      as [->|[(r & c' & -> & _)|(t & k & i & resp & c' & _ & _ & ->)]]; simpl.
    + exists new. split; [done|lia].
    + exists (r :: new). rewrite <-app_assoc. split; [done|simpl; lia].
    + eexists (_ :: new). rewrite <-app_assoc. split; [done|simpl; lia].
Qed.

(** Keeping a record of the calls changes nothing else: the step ends the
    same way, with the same results and table, and at most one call more on
    record. *)
Lemma exec_step_recording project_id step st log :
  ∃ calls, (length calls ≤ 1)%nat ∧
    exec_step (recording client) project_id step (with_log st log)
    = (st' ← exec_step client project_id step st;
       Ok (with_log st' (log ++ calls))).
Proof.
  unfold exec_step, with_log. simpl.
  destruct (getitem step "action") as [action|e];
    [|by exists []; split; [simpl; lia|]]. simpl.
  destruct (eq_str action "create_task").
  - unfold try_create_task. simpl.
    destruct (getitem step "title") as [title|e]; simpl.
    2: { exists []. split; [simpl; lia|].
         unfold error_result. rewrite app_nil_r.
         by destruct (getitem step "title"). }
    destruct (getitem step "description") as [description|e]; simpl.
    2: { exists []. split; [simpl; lia|].
         unfold error_result. rewrite app_nil_r.
         by destruct (getitem step "title"). }
    destruct (create_task client project_id title description (conn st))
      as [r c'].
    exists [create_task_call project_id title description].
    split; [simpl; lia|].
    destruct r as [resp|e]; simpl.
    + destruct (get resp "id" (JStr "")) as [id|e]; simpl.
      2: { unfold error_result. by destruct (getitem step "title"). }
      destruct (get resp "issue_id" id) as [task_id|e]; simpl.
      2: { unfold error_result. by destruct (getitem step "title"). }
      destruct (hash_key title) as [key|e]; simpl; [done|].
      unfold error_result. by destruct (getitem step "title").
    + unfold error_result. by destruct (getitem step "title").
  - destruct (eq_str action "start_workspace");
      [|by exists []; rewrite app_nil_r; split; [simpl; lia|]].
    destruct (getitem step "title") as [title|e] eqn:Ht; simpl;
      [|by exists []; split; [simpl; lia|]].
    destruct (hash_key title) as [key|e]; simpl;
      [|by exists []; split; [simpl; lia|]].
    unfold try_start_workspace. rewrite Ht.
    destruct (getitem step "executor") as [executor|e]; simpl.
    2: { exists []. split; [simpl; lia|].
         unfold error_result. rewrite Ht, app_nil_r. done. }
    destruct (get step "repo" (JStr "")) as [repo|e]; simpl.
    2: { exists []. split; [simpl; lia|].
         unfold error_result. rewrite Ht, app_nil_r. done. }
    destruct (get step "base_branch" (JStr "main")) as [branch|e]; simpl.
    2: { exists []. split; [simpl; lia|].
         unfold error_result. rewrite Ht, app_nil_r. done. }
    destruct (start_workspace client
                (default (JStr "") (title_to_task_id st !! key)) title
                executor repo branch (conn st)) as [r c'].
    eexists [start_workspace_call _ title executor repo branch].
    split; [simpl; lia|].
    destruct r as [resp|e]; simpl.
    + destruct (get resp "workspace_id" (JStr "")) as [ws|e]; simpl; [done|].
      unfold error_result. by rewrite Ht.
    + unfold error_result. by rewrite Ht.
Qed.

Lemma run_recording project_id steps : ∀ st log,
  ∃ calls, (length calls ≤ length steps)%nat ∧
    for_each (exec_step (recording client) project_id) steps (with_log st log)
    = (st' ← for_each (exec_step client project_id) steps st;
       Ok (with_log st' (log ++ calls))).
Proof.
  induction steps as [|step steps IH]; intros st log; simpl.
  - exists []. by rewrite app_nil_r.
  - destruct (exec_step_recording project_id step st log)
      as (calls1 & Hlen1 & ->).
    destruct (exec_step client project_id step st) as [st1|e]; simpl.
    + destruct (IH st1 (log ++ calls1)) as (calls & Hlen & ->).
      exists (calls1 ++ calls). rewrite length_app, app_assoc.
      split; [lia|done].
    + exists []. split; [simpl; lia|done].
Qed.

(** X7.  Whatever the plan, and also when its steps are not what the data
    model says: a run that returns has made at most one call and left at most
    one result per step, and the record of the calls is the only thing a
    recording client changes: the results are those of the plain run. *)
Theorem execute_plan_at_most_once
    (plan project_id : json) (steps results : list json) (c c' : C)
    (calls : list call) :
  field "steps" plan = Some (JList steps) →
  execute_plan (recording client) plan project_id (c, [])
  = Ok (results, (c', calls)) →
  execute_plan client plan project_id c = Ok (results, c') ∧
  (length calls ≤ length steps)%nat ∧
  (length results ≤ length steps)%nat.
Proof.
  intros Hsteps. destruct plan as [| |p]; try done. simpl in Hsteps.
  unfold execute_plan. simpl. rewrite Hsteps. simpl.
  destruct (run_recording project_id steps (initial_state c) [])
    as (calls' & Hlen & Hrec).
  change (initial_state (c, [])) with (with_log (initial_state c) []).
  rewrite Hrec.
  destruct (for_each (exec_step client project_id) steps (initial_state c))
    as [st'|e] eqn:Hrun; simpl; [|done].
  intros [= <- <- <-]. split_and!; [done|done|].
  apply run_results_grow in Hrun as (new & Hres & Hnew).
  rewrite Hres. simpl. done.
Qed.

(** X8.  Results are never revised: the results of a plan cut short after
    some steps are the first results of the whole plan. *)
Theorem execute_plan_prefix
    (project_id : json) (steps more : list json) (results : list json)
    (c c' : C) :
  execute_plan client (plan_of_steps (steps ++ more)) project_id c
  = Ok (results, c') →
  ∃ first c1 rest,
    execute_plan client (plan_of_steps steps) project_id c = Ok (first, c1) ∧
    results = first ++ rest.
Proof.
  unfold execute_plan, plan_of_steps. simpl. intros H.
  apply bind_Ok in H as (st' & Hrun & H). simplify_eq.
  apply for_each_app_inv in Hrun as (st1 & Hrun1 & Hrun2).
  rewrite Hrun1. simpl.
  apply run_results_grow in Hrun2 as (new & -> & _). eauto.
Qed.


End ExecutorMore.

Lemma execute_plan_at_most_once_witness :
  execute_plan mock_client
    (plan_of_steps [JDict [("action", JStr "archive_task")];
                    start_workspace_step (JStr "Build the widget")
                      (JStr "claude-code") (JStr "") (JStr "main")])
    (JStr "proj-1") ()
  = Ok ([JDict [("action", JStr "start_workspace");
                ("title", JStr "Build the widget");
                ("status", JStr "success"); ("task_id", JStr "");
                ("workspace_id", JStr "ws-001");
                ("executor", JStr "claude-code");
                ("detail", JDict [("workspace_id", JStr "ws-001")])]], ()).
Proof.
  eapply (proj1 (execute_plan_at_most_once mock_client
                   (plan_of_steps
                      [JDict [("action", JStr "archive_task")];
                       start_workspace_step (JStr "Build the widget")
                         (JStr "claude-code") (JStr "") (JStr "main")])
                   (JStr "proj-1") _ _ () ()
                   [start_workspace_call (JStr "") (JStr "Build the widget")
                      (JStr "claude-code") (JStr "") (JStr "main")]
                   eq_refl eq_refl)).
Defined.

Lemma execute_plan_prefix_witness :
  ∃ first c1 rest,
    execute_plan mock_client
      (plan_of_steps [create_task_step (JStr "Build the widget") (JStr "")
                        (JStr "Medium") (JList []) JNone])
      (JStr "proj-1") ()
    = Ok (first, c1) ∧
    [JDict [("action", JStr "create_task"); ("title", JStr "Build the widget");
            ("status", JStr "success"); ("task_id", JStr "task-001");
            ("detail", JDict [("issue_id", JStr "task-001")])];
     JDict [("action", JStr "start_workspace");
            ("title", JStr "Build the widget");
            ("status", JStr "success"); ("task_id", JStr "task-001");
            ("workspace_id", JStr "ws-001");
            ("executor", JStr "claude-code");
            ("detail", JDict [("workspace_id", JStr "ws-001")])]]
    = first ++ rest.
Proof.
  apply (execute_plan_prefix mock_client (JStr "proj-1")
           [create_task_step (JStr "Build the widget") (JStr "")
              (JStr "Medium") (JList []) JNone]
           [start_workspace_step (JStr "Build the widget")
              (JStr "claude-code") (JStr "") (JStr "main")] _ () ()).
  reflexivity.
Defined.


(** ** From manifest to report *)

Section Pipeline.
Variable container_repr : json → string.

Lemma planned_steps_have_title de dr db tasks blocks :
  Forall2 (planned container_repr de dr db) tasks blocks →
  Forall (λ step, is_Some (field "action" step) ∧ is_Some (field "title" step))
         (concat blocks).
Proof.
  induction 1 as [|task block tasks blocks Hb _ IH]; simpl; [constructor|].
  destruct Hb as (d & title & sub_steps & -> & Ht & _ & -> & Hall).
  apply Forall_app. split; [|done].
  repeat (constructor; [by split; eexists|]).
  clear -Hall. induction Hall as [|sub step subs sub_steps (st & _ & ->) _ IH];
    constructor; [by split; eexists|done].
Qed.

Lemma dry_run_steps steps :
  Forall (λ step, is_Some (field "action" step) ∧ is_Some (field "title" step))
         steps →
  ∃ rs,
    map_each (λ s,
                action ← getitem s "action";
                title ← getitem s "title";
                Ok (JDict [("action", action); ("title", title);
                           ("status", JStr "skipped")]))
             steps = Ok rs ∧
    Forall2 skipped_of steps rs.
Proof.
  induction 1 as [|step steps [[a Ha] [t Ht]] _ (rs & IH & Hall)]; simpl.
  - exists []. split; [done|constructor].
  - destruct step as [| |d]; simplify_eq/=. rewrite Ha, Ht. simpl.
    rewrite IH. simpl. eexists. split; [done|].
    constructor; [|done]. unfold skipped_of. simpl. by rewrite Ha, Ht.
Qed.

Lemma count_where_skipped status rs steps :
  status ≠ "skipped" →
  Forall2 skipped_of steps rs →
  count_where (has_status status) rs = Ok 0.
Proof.
  intros Hne. induction 1 as [|step r steps rs (_ & _ & Hs) _ IH]; simpl; [done|].
  assert (has_status status r = Ok false) as ->.
  { destruct r as [| |d]; simplify_eq/=. unfold has_status. simpl.
    rewrite Hs. simpl. by rewrite bool_decide_eq_false_2 by congruence. }
  simpl. by rewrite IH.
Qed.

(** X10.  Validation aside, the whole pipe holds together: for a manifest
    typed as the data model has it and titled with strings, and for any
    client, the plan is made, the run returns, the report is built, and the
    report counts 2N + S steps, every one of them as succeeded or as failed.
    Its [total_tasks] and [total_workspaces] are the plan's, N and N: they
    say what was planned, not what was done, and are the same when every
    call fails. *)
Theorem report_of_planned_run {C : Type} (client : Client C)
    (now : string) (manifest : dict) (project_id : json) (c : C) :
  well_typed_manifest manifest = true →
  str_titled manifest = true →
  ∃ plan results c' report s f,
    plan_execution container_repr manifest = Ok plan ∧
    execute_plan client plan project_id c = Ok (results, c') ∧
    build_execution_report now manifest plan results project_id = Ok report ∧
    summary_count "total_steps" report
    = Some (Z.of_nat (2 * task_count manifest + subtask_count manifest)) ∧
    summary_count "succeeded" report = Some s ∧
    summary_count "failed" report = Some f ∧
    s + f = Z.of_nat (2 * task_count manifest + subtask_count manifest) ∧
    summary_count "total_tasks" report = Some (Z.of_nat (task_count manifest)) ∧
    summary_count "total_workspaces" report
    = Some (Z.of_nat (task_count manifest)).
Proof.
  intros Hwt Hst.
  destruct (planned_run_returns client container_repr manifest project_id c
              Hwt Hst) as (plan & results & c' & Hplan & Hrun & Hlen).
  pose proof (execute_plan_settled _ _ _ _ _ _ Hrun) as Hsettled.
  pose proof Hplan
    as (dd & de & dr & db & blocks & _ & _ & _ & _ & _ & Hb & Hp)
         %plan_execution_inv.
  destruct (build_execution_report_returns now manifest plan results project_id)
    as [report Hreport].
  { eapply Forall_impl; [exact Hsettled|]. intros r [Hr|Hr]; by eexists. }
  { subst plan. eexists. split; [reflexivity|]. split; by eexists. }
  pose proof Hreport as (s & f & Hs & Hf & Hrs & Hrf & Hn)
                          %build_execution_report_summary.
  destruct (count_success_error results s f Hs Hf) as (_ & _ & _ & Heq).
  exists plan, results, c', report, s, f.
  rewrite <-Hlen. split_and!; try done; [by apply Heq|..];
    subst plan; unfold build_execution_report in Hreport;
    rewrite Hs, Hf in Hreport; simpl in Hreport; by simplify_eq.
Qed.

(** X11.  A dry run of any plan the planner returns gives one result per
    step, named after the step and marked skipped, and the report built from
    them counts no success and no failure, however many steps there are. *)
Theorem dry_run_report (now : string) (manifest : dict)
    (plan project_id : json) :
  plan_execution container_repr manifest = Ok plan →
  ∃ results report,
    dry_run_results plan = Ok results ∧
    Forall2 skipped_of (plan_steps plan) results ∧
    build_execution_report now manifest plan results project_id = Ok report ∧
    summary_count "succeeded" report = Some 0 ∧
    summary_count "failed" report = Some 0 ∧
    summary_count "total_steps" report
    = Some (Z.of_nat (length (plan_steps plan))).
Proof.
  intros (dd & de & dr & db & blocks & _ & _ & _ & _ & _ & Hb & ->)
    %plan_execution_inv.
  destruct (dry_run_steps _ (planned_steps_have_title _ _ _ _ _ Hb))
    as (rs & Hrs & Hall).
  unfold dry_run_results, plan_steps. simpl. rewrite Hrs.
  eexists rs, _. split; [done|]. split; [done|].
  unfold build_execution_report.
  rewrite (count_where_skipped "success" _ _ ltac:(done) Hall),
          (count_where_skipped "error" _ _ ltac:(done) Hall). simpl.
  split; [reflexivity|]. unfold summary_count. simpl.
  by rewrite (Forall2_length _ _ _ Hall).
Qed.

End Pipeline.

Lemma report_of_planned_run_witness :
  ∃ plan results report,
    plan_execution (λ _, "") PARENT_MANIFEST = Ok plan ∧
    execute_plan rejecting_all plan (JStr "proj-1") () = Ok (results, ()) ∧
    build_execution_report "2026-01-01T00:00:00+00:00" PARENT_MANIFEST plan
      results (JStr "proj-1") = Ok report ∧
    summary_count "total_steps" report = Some 6 ∧
    summary_count "succeeded" report = Some 0 ∧
    summary_count "failed" report = Some 6 ∧
    summary_count "total_tasks" report = Some 2 ∧
    summary_count "total_workspaces" report = Some 2.
Proof.
  destruct (report_of_planned_run (λ _, "") rejecting_all
              "2026-01-01T00:00:00+00:00" PARENT_MANIFEST (JStr "proj-1") ()
              eq_refl eq_refl)
    as (plan & results & [] & report & s & f & Hp & Hr & Hb & Hn & Hs & Hf
        & _ & Ht & Hw).
  exists plan, results, report. split_and!; try done.
  - vm_compute in Hp. injection Hp as <-.
    vm_compute in Hr. injection Hr as <-.
    vm_compute in Hb. by injection Hb as <-.
  - vm_compute in Hp. injection Hp as <-.
    vm_compute in Hr. injection Hr as <-.
    vm_compute in Hb. by injection Hb as <-.
Defined.

Lemma dry_run_report_witness :
  ∃ results report,
    dry_run_results twin_plan = Ok results ∧
    build_execution_report "2026-01-01T00:00:00+00:00" TWIN_MANIFEST twin_plan
      results (JStr "proj-1") = Ok report ∧
    summary_count "succeeded" report = Some 0 ∧
    summary_count "failed" report = Some 0 ∧
    summary_count "total_steps" report = Some 4.
Proof.
  destruct (dry_run_report (λ _, "") "2026-01-01T00:00:00+00:00"
              TWIN_MANIFEST twin_plan (JStr "proj-1") eq_refl)
    as (results & report & Hd & _ & Hb & Hs & Hf & Hn).
  by exists results, report.
Defined.

(** ** MCP Client: the transport *)

Section TransportFacts.
Import Transport.
Context {H W : Type}.
Variable Popen : list string → io W H.
Variable write : H → string → io W ().
Variable flush : H → io W ().
Variable readline : H → io W string.
Variable terminate : H → io W ().
Variable dumps : json → string.
Variable loads : string → result json.
Variable container_repr : json → string.

(** X12.  A client that has done its handshake sends one line per tool call
    and no more, whatever comes of the call: the request, under the
    identifier the client had in store, which is then used up.  The client
    keeps its process and stays initialized. *)
Theorem call_tool_sends_one_request
    (tool_name : string) (arguments : json) (o o' : client_object H)
    (h : H) (w w' : W) (lines lines' : list string) (r : result json) :
  _initialized o = true →
  _process o = Some h →
  _call_tool (unlogged Popen) (logged_write write) (unlogged flush)
             (unlogged readline) dumps loads container_repr
             tool_name arguments (o, (w, lines))
  = (r, (o', (w', lines'))) →
  lines' = lines ++ [dumps (tool_request (_next_id o) tool_name arguments) +:+ "
"] ∧
  o' = set_next_id (_next_id o + 1) o.
Proof.
  intros Hinit Hproc.
  unfold _call_tool, _ensure_initialized, send, process_pipe, on_self,
    on_world, gets, modify, of_result, logged_write, unlogged.
  unfold mbind, io_bind, mret, io_ret. simpl. rewrite Hinit. simpl.
  rewrite Hproc. simpl.
  destruct (write h _ w) as [[[]|e] w1]; simpl; [|by intros [= <- <- <- <-]].
  rewrite Hproc.
  destruct (flush h w1) as [[[]|e] w2]; simpl; [|by intros [= <- <- <- <-]].
  rewrite Hproc.
  destruct (readline h w2) as [[line|e] w3]; simpl;
    [|by intros [= <- <- <- <-]].
  destruct (decide (line = "")); by intros [= <- <- <- <-].
Qed.

(** X13.  [close] takes the process away but leaves the client initialized,
    so a client that has been used and closed is of no more use: its next
    call raises [AttributeError] before anything is started or sent. *)
Theorem call_tool_after_close
    (tool_name : string) (arguments : json) (o o' : client_object H)
    (w w' : W) :
  _initialized o = true →
  close terminate (o, w) = (Ok (), (o', w')) →
  ∃ o'',
    _call_tool Popen write flush readline dumps loads container_repr
               tool_name arguments (o', w')
    = (Raise (Exn "AttributeError"
                  "'NoneType' object has no attribute 'stdin'"), (o'', w')) ∧
    _process o'' = None ∧ _initialized o'' = true.
Proof.
  intros Hinit.
  unfold close, on_self, on_world, gets, modify.
  unfold mbind, io_bind, mret, io_ret. simpl.
  assert (∀ o1 : client_object H, _initialized o1 = true → _process o1 = None →
            ∃ o'',
              _call_tool Popen write flush readline dumps loads container_repr
                         tool_name arguments (o1, w')
              = (Raise (Exn "AttributeError"
                            "'NoneType' object has no attribute 'stdin'"),
                 (o'', w')) ∧
              _process o'' = None ∧ _initialized o'' = true) as Hcall.
  { intros o1 Hi Hp.
    unfold _call_tool, _ensure_initialized, send, process_pipe, on_self,
      on_world, gets, modify, raise.
    unfold mbind, io_bind, mret, io_ret. simpl. rewrite Hi. simpl.
    rewrite Hp. simpl. eexists. split; [reflexivity|]. done. }
  destruct (_process o) as [h|] eqn:Hproc.
  - destruct (terminate h w) as [[[]|e] w1]; simpl; [|by intros [=]].
    intros [= <- <-]. by apply Hcall.
  - intros [= <- <-]. by apply Hcall.
Qed.

(** X14.  What a response line means.  An error object with a message is
    raised as [RuntimeError] "MCP error: " and the message; an error that is
    not an object is lost in an [AttributeError].  Without an error, the
    text of a first content item of type "text" is decoded and returned;
    a result without content is returned as it is, and an envelope without
    a result gives the empty dict. *)
Theorem read_response_cases (response_line : string) (envelope : dict) :
  loads response_line = Ok (JDict envelope) →
  (∀ error message,
     dict_lookup "error" envelope = Some (JDict error) →
     dict_lookup "message" error = Some (JStr message) →
     read_response loads container_repr response_line
     = Raise (Exn "RuntimeError" ("MCP error: " +:+ message))) ∧
  (∀ error,
     dict_lookup "error" envelope = Some (JScalar error) →
     read_response loads container_repr response_line
     = Raise (no_attribute (JScalar error) "get")) ∧
  (dict_lookup "error" envelope = None →
   (∀ result item rest text,
      dict_lookup "result" envelope = Some (JDict result) →
      dict_lookup "content" result = Some (JList (JDict item :: rest)) →
      dict_lookup "type" item = Some (JStr "text") →
      dict_lookup "text" item = Some (JStr text) →
      read_response loads container_repr response_line = loads text) ∧
   (∀ result,
      dict_lookup "result" envelope = Some (JDict result) →
      dict_lookup "content" result = None →
      read_response loads container_repr response_line = Ok (JDict result)) ∧
   (dict_lookup "result" envelope = None →
    read_response loads container_repr response_line = Ok (JDict []))).
Proof.
  intros Hloads. unfold read_response. rewrite Hloads. simpl.
  unfold dict_has, dict_get. split_and!.
  - intros error message He Hm. rewrite He. simpl.
    unfold dict_get. by rewrite Hm.
  - intros error He. by rewrite He.
  - intros He. rewrite He. split_and!.
    + intros result item rest text Hr Hc Ht Htext.
      rewrite Hr. simpl. unfold dict_get. rewrite Hc. simpl.
      unfold dict_get. rewrite Ht. simpl. by rewrite Htext.
    + intros result Hr Hc. rewrite Hr. simpl. unfold dict_get. by rewrite Hc.
    + intros Hr. by rewrite Hr.
Qed.

End TransportFacts.

Lemma call_tool_sends_one_request_witness :
  ∃ o' lines,
    Transport._call_tool (unlogged scripted_Popen)
      (logged_write scripted_write)
      (unlogged scripted_flush) (unlogged scripted_readline)
      (λ _, "request") loads_sample (λ _, "")
      "create_issue" (JDict [])
      (Transport.set_initialized true
         (Transport.set_process (Some ()) (Transport.__init__ "npx" None)),
       (["{}"], []))
    = (Ok (JDict []), (o', ([], lines))) ∧
    lines = ["request
"] ∧
    Transport._next_id o' = 2.
Proof.
  eexists _, _. split; [reflexivity|].
  match goal with
  | |- ?lines = _ ∧ Transport._next_id ?o' = _ =>
      destruct (call_tool_sends_one_request scripted_Popen scripted_write
                  scripted_flush scripted_readline (λ _, "request")
                  loads_sample (λ _, "") "create_issue" (JDict [])
                  (Transport.set_initialized true
                     (Transport.set_process (Some ())
                        (Transport.__init__ "npx" None)))
                  o' () ["{}"] [] [] lines (Ok (JDict []))
                  eq_refl eq_refl eq_refl) as [Hl Ho]
  end.
  split; [exact Hl|]. reflexivity.
Defined.

Lemma call_tool_after_close_witness :
  ∃ o'',
    Transport._call_tool scripted_Popen scripted_write scripted_flush
      scripted_readline (λ _, "request") loads_sample (λ _, "")
      "create_issue" (JDict [])
      (Transport.set_process None
         (Transport.set_initialized true
            (Transport.set_process (Some ()) (Transport.__init__ "npx" None))),
       ["{}"])
    = (Raise (Exn "AttributeError"
                  "'NoneType' object has no attribute 'stdin'"),
       (o'', ["{}"])).
Proof.
  destruct (call_tool_after_close scripted_Popen scripted_write scripted_flush
              scripted_readline (λ _ script, (Ok (), script))
              (λ _, "request") loads_sample (λ _, "")
              "create_issue" (JDict [])
              (Transport.set_initialized true
                 (Transport.set_process (Some ())
                    (Transport.__init__ "npx" None)))
              _ ["{}"] _ eq_refl eq_refl) as (o'' & Hcall & _).
  by exists o''.
Defined.

Lemma read_response_cases_witness :
  Transport.read_response loads_sample (λ _, "") "error-line"
  = Raise (Exn "RuntimeError" "MCP error: rejected").
Proof.
  exact (proj1 (read_response_cases loads_sample (λ _, "") "error-line" _
                  eq_refl) _ "rejected" eq_refl eq_refl).
Defined.

(** ** MCP Client: a server that says nothing *)

Section SilentServer.
Import Transport.
Context {H W : Type}.
Variable Popen : list string → io W H.
Variable write : H → string → io W ().
Variable flush : H → io W ().
Variable readline : H → io W string.
Variable dumps : json → string.
Variable loads : string → result json.
Variable container_repr : json → string.
Variable str_upper : string → string.

(** The worlds in which the process [h] takes what it is sent and has closed
    its output. *)
Variable silent : W → Prop.
Variable h : H.
Hypothesis write_silent : ∀ line w,
  silent w → ∃ w', write h line w = (Ok (), w') ∧ silent w'.
Hypothesis flush_silent : ∀ w,
  silent w → ∃ w', flush h w = (Ok (), w') ∧ silent w'.
Hypothesis readline_silent : ∀ w,
  silent w → ∃ w', readline h w = (Ok "", w') ∧ silent w'.

Abbreviation the_client :=
  (client Popen write flush readline dumps loads container_repr str_upper).

(** The client ready for a call: handshake done, process at hand. *)
Let ready (c : client_object H * W) : Prop :=
  _initialized c.1 = true ∧ _process c.1 = Some h ∧ silent c.2.

Lemma call_tool_silent tool_name arguments c :
  ready c →
  ∃ c', _call_tool Popen write flush readline dumps loads container_repr
                   tool_name arguments c = (Ok (JDict []), c') ∧
        ready c'.
Proof.
  destruct c as [o w]. intros (Hinit & Hproc & Hw). simpl in *.
  unfold _call_tool, _ensure_initialized, send, process_pipe, on_self,
    on_world, gets, modify, of_result.
  unfold mbind, io_bind, mret, io_ret. simpl. rewrite Hinit. simpl.
  rewrite Hproc. simpl.
  destruct (write_silent
              (dumps (tool_request (_next_id o) tool_name arguments) +:+ "
") w Hw) as (w1 & -> & Hw1). simpl. rewrite Hproc.
  destruct (flush_silent w1 Hw1) as (w2 & -> & Hw2). simpl. rewrite Hproc.
  destruct (readline_silent w2 Hw2) as (w3 & -> & Hw3). simpl.
  eexists. split; [reflexivity|]. done.
Qed.

Lemma exec_step_silent project_id step st :
  ready (conn st) →
  (∀ key id, title_to_task_id st !! key = Some id → id = JStr "") →
  well_formed_step step = true → str_executor step = true →
  ∃ r table' c',
    exec_step the_client project_id step st
    = Ok {| results := results st ++ [r];
            title_to_task_id := table'; conn := c' |} ∧
    ready c' ∧
    (∀ key id, table' !! key = Some id → id = JStr "") ∧
    empty_success_of step r.
Proof.
  intros Hready Htable.
  unfold well_formed_step, str_executor, action_is, has_field. intros Hwf Hex.
  destruct step as [| |d]; try done. simpl in Hwf, Hex.
  destruct (dict_lookup "title" d) as [[[| | |t]| |]|] eqn:Ht; try done.
  destruct (dict_lookup "action" d) as [a|] eqn:Ha; try done.
  unfold exec_step, empty_success_of. simpl. rewrite Ha. simpl.
  destruct (eq_str a "create_task") eqn:Hc.
  - apply eq_str_true in Hc as ->. simpl in Hwf.
    destruct (dict_lookup "description" d) as [description|] eqn:Hd; try done.
    unfold try_create_task. simpl. rewrite Ht, Hd.
    destruct (call_tool_silent "create_issue"
                (JDict [("project_id", project_id); ("title", JStr t);
                        ("description", description)]) (conn st) Hready)
      as (c' & Hcall & Hready').
    unfold VKMcpClient.create_task. rewrite Hcall. simpl.
    eexists _, _, c'. split; [reflexivity|]. split_and!; try done.
    intros key id. destruct (decide (SStr t = key)) as [<-|Hne].
    + rewrite lookup_insert_eq. by intros [= <-].
    + rewrite lookup_insert_ne by done. apply Htable.
  - simpl in Hwf. destruct (eq_str a "start_workspace") eqn:Hw; try done.
    apply eq_str_true in Hw as ->. simpl in Hwf.
    destruct (dict_lookup "executor" d) as [[[| | |executor]| |]|] eqn:He;
      try done.
    rewrite Ht. simpl. unfold try_start_workspace. simpl. rewrite Ht, He.
    assert (default (JStr "") (title_to_task_id st !! SStr t) = JStr "") as ->.
    { destruct (title_to_task_id st !! SStr t) as [id|] eqn:Hid; [|done].
      simpl. by apply (Htable _ _ Hid). }
    unfold VKMcpClient.start_workspace, VKMcpClient.start_workspace_args.
    simpl.
    match goal with
    | |- context [_call_tool _ _ _ _ _ _ _ ?name ?args (conn st)] =>
        destruct (call_tool_silent name args (conn st) Hready)
          as (c' & Hcall & Hready')
    end.
    rewrite Hcall. simpl.
    eexists _, _, c'. split; [reflexivity|]. by split_and!.
Qed.

Lemma run_silent project_id steps : ∀ st,
  ready (conn st) →
  (∀ key id, title_to_task_id st !! key = Some id → id = JStr "") →
  forallb (λ step, well_formed_step step && str_executor step) steps = true →
  ∃ rs table' c',
    for_each (exec_step the_client project_id) steps st
    = Ok {| results := results st ++ rs;
            title_to_task_id := table'; conn := c' |} ∧
    Forall2 empty_success_of steps rs.
Proof.
  induction steps as [|step steps IH]; intros st Hready Htable Hsteps; simpl.
  - exists [], (title_to_task_id st), (conn st). rewrite app_nil_r.
    destruct st. split; [done|constructor].
  - apply andb_prop in Hsteps as [[Hwf Hex]%andb_prop Hsteps].
    destruct (exec_step_silent project_id step st Hready Htable Hwf Hex)
      as (r & table1 & c1 & -> & Hready1 & Htable1 & Hr). simpl.
    destruct (IH {| results := results st ++ [r];
                    title_to_task_id := table1; conn := c1 |}
                 Hready1 Htable1 Hsteps)
      as (rs & table' & c' & Hrun & Hrs).
    exists (r :: rs), table', c'. simpl in Hrun.
    rewrite <-app_assoc in Hrun. split; [done|by constructor].
Qed.

(** X15.  A server that takes requests and has closed its output is taken
    for one that answers: [_call_tool] returns the empty dict for the empty
    line it reads, and so every step of a plan is reported as a success, with
    the empty string for the identifier that was never given. *)
Theorem silent_server_reports_success
    (plan project_id : json) (steps : list json) (o : client_object H)
    (w : W) :
  _initialized o = true → _process o = Some h → silent w →
  field "steps" plan = Some (JList steps) →
  forallb (λ step, well_formed_step step && str_executor step) steps = true →
  ∃ results c',
    execute_plan the_client plan project_id (o, w) = Ok (results, c') ∧
    Forall2 empty_success_of steps results.
Proof.
  intros Hinit Hproc Hw Hsteps Hwf.
  destruct plan as [| |p]; try done. simpl in Hsteps.
  unfold execute_plan. simpl. rewrite Hsteps. simpl.
  destruct (run_silent project_id steps (initial_state (o, w)))
    as (rs & table' & c' & Hrun & Hrs); [done| |done|].
  { intros key id. simpl. by rewrite lookup_empty. }
  rewrite Hrun. simpl. eauto.
Qed.

End SilentServer.

Lemma silent_server_reports_success_witness :
  ∃ results c',
    execute_plan
      (Transport.client scripted_Popen scripted_write scripted_flush
         scripted_readline (λ _, "request") loads_sample (λ _, "") ascii_upper)
      sample_plan (JStr "proj-1")
      (Transport.set_initialized true
         (Transport.set_process (Some ()) (Transport.__init__ "npx" None)),
       [])
    = Ok (results, c') ∧
    Forall2 empty_success_of (plan_steps sample_plan) results.
Proof.
  apply (silent_server_reports_success scripted_Popen scripted_write
           scripted_flush scripted_readline (λ _, "request") loads_sample
           (λ _, "") ascii_upper (λ script, script = []) ());
    try reflexivity.
  - intros line w ->. by exists [].
  - intros w ->. by exists [].
  - intros w ->. by exists [].
Defined.

(** ** I/O Contract *)

Lemma dict_set_fresh (k : string) (v : json) (d : dict) :
  k ∉ d.*1 → dict_set k v d = d ++ [(k, v)].
Proof.
  induction d as [|[k' v'] d IH]; simpl; [done|].
  intros Hk. apply not_elem_of_cons in Hk as [Hne Hk].
  destruct (decide (k' = k)); [done|]. by rewrite IH.
Qed.

Lemma dict_lookup_fmap (f : json → json) (k : string) (d : dict) :
  dict_lookup k (prod_map id f <$> d) = f <$> dict_lookup k d.
Proof.
  induction d as [|[k' v'] d IH]; simpl; [done|].
  by destruct (decide (k' = k)).
Qed.

Lemma read_input_loop (items : dict) : ∀ parsed : dict,
  NoDup (parsed.*1 ++ items.*1) →
  foldl (λ parsed '(key, val), dict_set key (IO.unwrap val) parsed)
        parsed items
  = parsed ++ (prod_map id IO.unwrap <$> items).
Proof.
  induction items as [|[k v] items IH]; intros parsed Hnd; simpl.
  - by rewrite app_nil_r.
  - simpl in Hnd. rewrite dict_set_fresh.
    + rewrite IH.
      * by rewrite <-app_assoc.
      * rewrite fmap_app. simpl. by rewrite <-app_assoc.
    + apply NoDup_app in Hnd as (_ & Hnd & _). intros Hk.
      apply (Hnd k Hk). by left.
Qed.

(** X16.  [read_input] keeps the keys of the input file, in their order, and
    takes one wrapper off each value.  A value that is a dict with a "value"
    entry gives way to that entry, whatever else the dict holds and also when
    the entry is a wrapper itself; a dict without such an entry, and every
    value that is not a dict, is handed on as it is. *)
Theorem read_input_unwraps (items : dict) :
  NoDup items.*1 →
  ∃ parsed,
    IO.read_input (JDict items) = Ok parsed ∧
    parsed.*1 = items.*1 ∧
    ∀ key val,
      dict_lookup key items = Some val →
      (∀ wrapper inner,
         val = JDict wrapper → dict_lookup "value" wrapper = Some inner →
         dict_lookup key parsed = Some inner) ∧
      (∀ wrapper,
         val = JDict wrapper → dict_lookup "value" wrapper = None →
         dict_lookup key parsed = Some val) ∧
      ((∀ wrapper, val ≠ JDict wrapper) →
       dict_lookup key parsed = Some val).
Proof.
  intros Hnd. exists (prod_map id IO.unwrap <$> items). split_and!.
  - unfold IO.read_input. by rewrite read_input_loop.
  - rewrite <-list_fmap_compose. by apply list_fmap_ext; intros ? [].
  - intros key val Hval. rewrite dict_lookup_fmap, Hval. simpl. split_and!.
    + intros wrapper inner -> Hinner. simpl. by rewrite Hinner.
    + intros wrapper -> Hnone. simpl. by rewrite Hnone.
    + intros Hnd'. destruct val as [| |wrapper]; try done.
      by destruct (Hnd' wrapper).
Qed.

Lemma read_input_unwraps_witness :
  IO.read_input (JDict WRAPPED_INPUT)
  = Ok [("task_file", JStr "/tmp/task.json");
        ("dry_run", JBool true);
        ("options", JDict [("value", JInt 1)]);
        ("labels", JDict [("kind", JStr "demo")])].
Proof.
  destruct (read_input_unwraps WRAPPED_INPUT) as (parsed & Hread & _ & _).
  - simpl. repeat (apply NoDup_cons; split; [set_solver|]). apply NoDup_nil_2.
  - rewrite Hread. vm_compute in Hread. by injection Hread as <-.
Defined.

(** ** Entrypoint *)

Section EntrypointFacts.
Import Entrypoint.
Variable container_repr : json → string.
Variable str_lower : string → string.
Variable o : key_order.

Abbreviation prepare := (Entrypoint.prepare container_repr str_lower o).

(** The one ground on which [main]'s own manifest can fail validation is its
    agent. *)
Lemma validate_built_manifest (task agent repo_id base_branch : json) :
  validate_manifest o (build_manifest task agent repo_id base_branch)
  = (a ← hashable agent;
     if in_str_set a VALID_EXECUTORS then Ok []
     else Ok [invalid_executor_msg 0 a]).
Proof.
  unfold validate_manifest.
  assert (check_required (REQUIRED_MANIFEST_KEYS o)
            (build_manifest task agent repo_id base_branch) = []) as ->.
  { by destruct o. }
  simpl. unfold check_member. simpl.
  destruct (hashable agent) as [a|e]; simpl; [|done].
  by destruct (in_str_set a VALID_EXECUTORS).
Qed.

Lemma plan_built_manifest (task agent repo_id base_branch : json) :
  plan_execution container_repr
    (build_manifest task agent repo_id base_branch)
  = Ok (JDict
          [("steps",
            JList [create_task_step task (JStr "") (JStr "Medium") (JList [])
                                    JNone;
                   start_workspace_step task agent repo_id base_branch]);
           ("summary", JDict [("total_tasks", JInt 1);
                              ("total_subtasks", JInt 0);
                              ("total_workspaces", JInt 1)])]).
Proof. reflexivity. Qed.

Lemma prepare_inv (d : dict) (p : prepared) :
  prepare (JDict d) = Go p →
  truthy (project_id p) = true ∧ truthy (task p) = true ∧
  (∃ a, agent p = JStr a ∧ a ∈ VALID_EXECUTORS) ∧
  project_id p = dict_get "project_id" (JStr "") d ∧
  task p = dict_get "task" (JStr "") d ∧
  agent p = dict_get "agent" (JStr "claude-code") d ∧
  repo_id p = dict_get "repo_id" (JStr "") d ∧
  base_branch p = dict_get "base_branch" (JStr "main") d ∧
  manifest p
  = build_manifest (task p) (agent p) (repo_id p) (base_branch p) ∧
  plan p
  = JDict [("steps", JList (main_steps p));
           ("summary", JDict [("total_tasks", JInt 1);
                              ("total_subtasks", JInt 0);
                              ("total_workspaces", JInt 1)])].
Proof.
  unfold Entrypoint.prepare. simpl.
  destruct (truthy (dict_get "project_id" (JStr "") d)) eqn:Hp; [|done].
  simpl.
  destruct (truthy (dict_get "task" (JStr "") d)) eqn:Ht; [|done]. simpl.
  rewrite validate_built_manifest.
  destruct (dict_get "agent" (JStr "claude-code") d) as [a| |] eqn:Ha;
    [|done..]. simpl.
  destruct (in_str_set a VALID_EXECUTORS) eqn:Hin; [|done]. simpl.
  intros [= <-]. simpl. split_and!; try done.
  destruct a as [| | |a]; try done. exists a. split; [done|].
  by apply bool_decide_eq_true in Hin.
Qed.

(** X17.  [main] gets as far as a plan exactly when the task data has a
    project and a task that are not empty and an agent, given or defaulted,
    that is the name of a valid executor: whatever else the task data holds,
    and in whatever order validation visits the required keys, the manifest
    built from it is accepted and planned. *)
Theorem main_reaches_execution (d : dict) :
  (∃ p, prepare (JDict d) = Go p) ↔
  truthy (dict_get "project_id" (JStr "") d) = true ∧
  truthy (dict_get "task" (JStr "") d) = true ∧
  ∃ a, dict_get "agent" (JStr "claude-code") d = JStr a ∧
       a ∈ VALID_EXECUTORS.
Proof.
  split.
  - intros [p Hp]. apply prepare_inv in Hp
      as (Hpid & Ht & (a & Ha & Hin) & Epid & Et & Eag & _).
    rewrite <-Epid, <-Et, <-Eag. eauto.
  - intros (Hp & Ht & a & Ha & Hin).
    unfold Entrypoint.prepare. simpl. rewrite Hp, Ht. simpl.
    rewrite validate_built_manifest, Ha. simpl.
    rewrite (bool_decide_eq_true_2 (a ∈ VALID_EXECUTORS)) by done.
    simpl. eauto.
Qed.

Lemma main_create_step {C : Type} (client : Client C)
    (pid description priority tags parent : json) (a : scalar) (c : C)
    (log : list call) :
  ∃ r table c',
    exec_step (recording client) pid
      (create_task_step (JScalar a) description priority tags parent)
      {| results := []; title_to_task_id := ∅; conn := (c, log) |}
    = Ok {| results := [r]; title_to_task_id := table;
            conn := (c', log ++ [create_task_call pid (JScalar a)
                                                  description]) |} ∧
    is_Some (field "status" r).
Proof.
  unfold exec_step, try_create_task. simpl.
  destruct (create_task client pid (JScalar a) description c) as [[resp|e] c'];
    simpl.
  - destruct (get resp "id" (JStr "")) as [id|e]; simpl.
    + destruct (get resp "issue_id" id) as [task_id|e]; simpl.
      * eexists _, _, _. split; [reflexivity|]. by eexists.
      * eexists _, _, _. split; [reflexivity|]. by eexists.
    + eexists _, _, _. split; [reflexivity|]. by eexists.
  - eexists _, _, _. split; [reflexivity|]. by eexists.
Qed.

Lemma main_start_step {C : Type} (client : Client C)
    (pid executor repo branch : json) (a : scalar) (c : C)
    (log : list call) (r1 : json) (table : gmap scalar json) :
  ∃ r c',
    exec_step (recording client) pid
      (start_workspace_step (JScalar a) executor repo branch)
      {| results := [r1]; title_to_task_id := table; conn := (c, log) |}
    = Ok {| results := [r1; r]; title_to_task_id := table;
            conn := (c', log ++ [start_workspace_call
                                   (default (JStr "") (table !! dict_key a))
                                   (JScalar a) executor repo branch]) |} ∧
    is_Some (field "status" r).
Proof.
  unfold exec_step, try_start_workspace. simpl. unfold dict_get. simpl.
  destruct (start_workspace client (default (JStr "") (table !! dict_key a))
              (JScalar a) executor repo branch c) as [[resp|e] c']; simpl.
  - destruct (get resp "workspace_id" (JStr "")) as [id|e]; simpl.
    + eexists _, _. split; [reflexivity|]. by eexists.
    + eexists _, _. split; [reflexivity|]. by eexists.
  - eexists _, _. split; [reflexivity|]. by eexists.
Qed.

(** X18.  Given a task that is a scalar, [main]'s plan costs the server two
    calls and no more, whatever the server answers: the task is created under
    its own text as title and with an empty description, and a workspace is
    asked for with the agent, repository and branch of the task data.  Two
    results come back, and the report is built for one task and one
    workspace. *)
Theorem main_makes_two_calls {C : Type} (client : Client C) (now : string)
    (d : dict) (p : prepared) (c : C) :
  prepare (JDict d) = Go p →
  (∃ a, task p = JScalar a) →
  ∃ results c' task_id report,
    execute_plan (recording client) (plan p) (project_id p) (c, [])
    = Ok (results,
          (c', [create_task_call (project_id p) (task p) (JStr "");
                start_workspace_call task_id (task p) (agent p) (repo_id p)
                                     (base_branch p)])) ∧
    length results = 2%nat ∧
    build_execution_report now (manifest p) (plan p) results (project_id p)
    = Ok report ∧
    field "project" report = Some (task p) ∧
    summary_count "total_steps" report = Some 2 ∧
    summary_count "total_tasks" report = Some 1 ∧
    summary_count "total_workspaces" report = Some 1.
Proof.
  intros Hp [a Ha].
  apply prepare_inv in Hp
    as (_ & _ & (ag & Hag & _) & _ & _ & _ & _ & _ & Hm & Hplan).
  rewrite Hplan, Hm. unfold main_steps. rewrite Ha, Hag.
  generalize (project_id p) (repo_id p) (base_branch p).
  intros pid repo branch.
  destruct (main_create_step client pid (JStr "") (JStr "Medium") (JList [])
              JNone a c []) as (r1 & table & c1 & Hcreate & Hr1).
  destruct (main_start_step client pid (JStr ag) repo branch a c1
              [create_task_call pid (JScalar a) (JStr "")] r1 table)
    as (r2 & c2 & Hstart & Hr2).
  destruct (build_execution_report_returns now
              (build_manifest (JScalar a) (JStr ag) repo branch)
              (JDict [("steps",
                       JList [create_task_step (JScalar a) (JStr "")
                                (JStr "Medium") (JList []) JNone;
                              start_workspace_step (JScalar a) (JStr ag) repo
                                branch]);
                      ("summary", JDict [("total_tasks", JInt 1);
                                         ("total_subtasks", JInt 0);
                                         ("total_workspaces", JInt 1)])])
              [r1; r2] pid) as [report Hreport].
  { by repeat constructor. }
  { eexists. split; [reflexivity|]. split; by eexists. }
  exists [r1; r2], c2, (default (JStr "") (table !! dict_key a)), report.
  split_and!; try done.
  - pose proof (for_each_two _ _ _ _ _ _ Hcreate Hstart) as Hrun.
    unfold execute_plan.
    change (getitem _ "steps")
      with (Ok (JList [create_task_step (JScalar a) (JStr "") (JStr "Medium")
                         (JList []) JNone;
                       start_workspace_step (JScalar a) (JStr ag) repo
                         branch])).
    unfold mbind at 1 2, result_bind, iter, initial_state.
    by rewrite Hrun.
  - unfold build_execution_report in Hreport.
    inv_bind Hreport. inv_bind Hreport. simpl in Hreport. by simplify_eq.
  - by pose proof Hreport as (s & f & _ & _ & _ & _ & Hn)
                             %build_execution_report_summary.
  - unfold build_execution_report in Hreport.
    inv_bind Hreport. inv_bind Hreport. simpl in Hreport. by simplify_eq.
  - unfold build_execution_report in Hreport.
    inv_bind Hreport. inv_bind Hreport. simpl in Hreport. by simplify_eq.
Qed.


Lemma prepare_dry_run (d : dict) (p : prepared) :
  prepare (JDict d) = Go p →
  dry_run p
  = bool_decide (str_lower (format container_repr
                              (dict_get "dry_run" (JStr "false") d))
                 = "true").
Proof.
  unfold Entrypoint.prepare. simpl.
  destruct (truthy (dict_get "project_id" (JStr "") d)); [|done]. simpl.
  destruct (truthy (dict_get "task" (JStr "") d)); [|done]. simpl.
  rewrite validate_built_manifest.
  destruct (dict_get "agent" (JStr "claude-code") d) as [a| |]; [|done..].
  simpl. destruct (in_str_set a VALID_EXECUTORS); [|done]. simpl.
  by intros [= <-].
Qed.

(** X20.  What counts as a dry run.  The flag is read through [str] and
    [lower], so the JSON value [true] asks for a dry run as the text "true"
    does in any case of its letters; [false], [null] and a task file without
    the flag ask for a real run, and so does every other text. *)
Theorem main_dry_run_flag (d : dict) (p : prepared) :
  (∀ s, is_ascii s = true → str_lower s = ascii_lower s) →
  prepare (JDict d) = Go p →
  (dict_lookup "dry_run" d = None → dry_run p = false) ∧
  (∀ b, dict_lookup "dry_run" d = Some (JBool b) → dry_run p = b) ∧
  (dict_lookup "dry_run" d = Some JNone → dry_run p = false) ∧
  (∀ s, dict_lookup "dry_run" d = Some (JStr s) → is_ascii s = true →
        dry_run p = bool_decide (ascii_lower s = "true")).
Proof.
  intros Hlower Hp. rewrite (prepare_dry_run d p Hp). unfold dict_get.
  split_and!.
  - intros ->. simpl. by rewrite (Hlower "false").
  - intros b ->. simpl. destruct b.
    + by rewrite (Hlower "True").
    + by rewrite (Hlower "False").
  - intros ->. simpl. by rewrite (Hlower "None").
  - intros s -> Hs. simpl. by rewrite (Hlower s Hs).
Qed.

End EntrypointFacts.

Lemma main_makes_two_calls_witness :
  let p := prepared_of (JStr "Add a login page") (JStr "codex")
                       (JStr "repo-1") in
  ∃ results c' task_id report,
    execute_plan (recording mock_client) (Entrypoint.plan p)
                 (Entrypoint.project_id p) ((), [])
    = Ok (results,
          (c', [create_task_call (JStr "proj-1") (JStr "Add a login page")
                                 (JStr "");
                start_workspace_call task_id (JStr "Add a login page")
                  (JStr "codex") (JStr "repo-1") (JStr "main")])) ∧
    length results = 2%nat ∧
    build_execution_report "2025-01-01T00:00:00+00:00"
      (Entrypoint.manifest p) (Entrypoint.plan p) results
      (Entrypoint.project_id p)
    = Ok report ∧
    field "project" report = Some (JStr "Add a login page") ∧
    summary_count "total_steps" report = Some 2 ∧
    summary_count "total_tasks" report = Some 1 ∧
    summary_count "total_workspaces" report = Some 1.
Proof.
  apply (main_makes_two_calls (λ _, "") Entrypoint.ascii_lower VTP mock_client
           "2025-01-01T00:00:00+00:00" TASK_FILE
           (prepared_of (JStr "Add a login page") (JStr "codex")
                        (JStr "repo-1"))
           ()).
  - vm_compute. reflexivity.
  - by eexists.
Defined.


Lemma main_dry_run_flag_witness :
  let d := DRY_RUN_TASK_FILE in
  let p := dry_run_prepared in
  (dict_lookup "dry_run" d = None → Entrypoint.dry_run p = false) ∧
  (∀ b, dict_lookup "dry_run" d = Some (JBool b) →
        Entrypoint.dry_run p = b) ∧
  (dict_lookup "dry_run" d = Some JNone → Entrypoint.dry_run p = false) ∧
  (∀ s, dict_lookup "dry_run" d = Some (JStr s) → is_ascii s = true →
        Entrypoint.dry_run p
        = bool_decide (Entrypoint.ascii_lower s = "true")).
Proof.
  apply (main_dry_run_flag (λ _, "") Entrypoint.ascii_lower VTP
           DRY_RUN_TASK_FILE dry_run_prepared).
  - reflexivity.
  - vm_compute. reflexivity.
Defined.

(** ** Execution Report: the HTML page *)

Lemma append_assoc (s1 s2 s3 : string) :
  (s1 +:+ s2) +:+ s3 = s1 +:+ (s2 +:+ s3).
Proof.
  induction s1 as [|c s1 IH]; [reflexivity|].
  change (String c ((s1 +:+ s2) +:+ s3) = String c (s1 +:+ (s2 +:+ s3))).
  by rewrite IH.
Qed.

Lemma append_empty_r (s : string) : s +:+ "" = s.
Proof.
  induction s as [|c s IH]; [reflexivity|].
  change (String c (s +:+ "") = String c s). by rewrite IH.
Qed.

Lemma map_each_inv {A B : Type} (f : A → result B) (l : list A) : ∀ rs,
  map_each f l = Ok rs → Forall2 (λ x r, f x = Ok r) l rs.
Proof.
  induction l as [|x l IH]; simpl; intros rs H.
  - simplify_eq. constructor.
  - do 2 inv_bind H. simplify_eq. constructor; [done|by apply IH].
Qed.

Section HtmlFacts.
Import HtmlReport.
Variable container_repr : json → string.

Abbreviation html_row := (HtmlReport.html_row container_repr).
Abbreviation build_execution_report_html :=
  (HtmlReport.build_execution_report_html container_repr).

Lemma html_row_reportable (r : json) (rows : string) :
  reportable r → ∃ rows', html_row r rows = Ok rows'.
Proof.
  intros ([a Ha] & [t Ht] & [s Hs]). destruct r as [| |rd]; try done.
  simpl in *. unfold HtmlReport.html_row. simpl. rewrite Hs, Ha, Ht. simpl.
  by eexists.
Qed.

Lemma html_rows_reportable (results : list json) : ∀ rows,
  Forall reportable results →
  ∃ rows', for_each html_row results rows = Ok rows'.
Proof.
  induction results as [|r results IH]; intros rows Hall; simpl.
  - by eexists.
  - apply Forall_cons in Hall as [Hr Hall].
    destruct (html_row_reportable r rows Hr) as [rows1 ->]. simpl.
    by apply IH.
Qed.

Section Run.
Context {C : Type} (client : Client C).

Lemma exec_step_reportable project_id step st st' :
  exec_step client project_id step st = Ok st' →
  Forall reportable (results st) → Forall reportable (results st').
Proof.
  unfold exec_step. intros H Hst. apply bind_Ok in H as (action & Ha & H).
  assert (∀ e res, error_result action step e = Ok res → reportable res)
    as Herr.
  { intros e res Hres. unfold error_result in Hres. inv_bind Hres.
    simplify_eq. split_and!; by eexists. }
  destruct (eq_str action "create_task") eqn:Hc.
  - destruct (try_create_task _ _ _ _ _ _) as [[[table' res]|e] c'] eqn:Htry.
    + apply try_create_task_Ok in Htry
        as (title & task_id & resp & key & Ht & Hk & -> & ->).
      simplify_eq. simpl. apply Forall_app. split; [done|].
      constructor; [|constructor]. split_and!; by eexists.
    + apply bind_Ok in H as (res & Hres & H). simplify_eq. simpl.
      apply Forall_app. split; [done|]. constructor; [|constructor]. eauto.
  - destruct (eq_str action "start_workspace") eqn:Hw; [|by simplify_eq].
    apply bind_Ok in H as (title & Ht & H). apply bind_Ok in H as (key & Hk & H).
    destruct (try_start_workspace _ _ _ _ _) as [[res|e] c'] eqn:Htry.
    + simplify_eq. simpl. apply Forall_app. split; [done|].
      constructor; [|constructor].
      revert Htry. unfold try_start_workspace.
      repeat (match goal with
              | |- context [match ?x with Ok _ => _ | Raise _ => _ end] =>
                  destruct x; [|by intros [=]]
              end).
      destruct (start_workspace _ _ _ _ _ _ _) as [r c1].
      intros [= H ->]. do 2 inv_bind H. simplify_eq.
      split_and!; by eexists.
    + apply bind_Ok in H as (res & Hres & H). simplify_eq. simpl.
      apply Forall_app. split; [done|]. constructor; [|constructor]. eauto.
Qed.

Lemma run_reportable project_id steps : ∀ st st',
  for_each (exec_step client project_id) steps st = Ok st' →
  Forall reportable (results st) → Forall reportable (results st').
Proof.
  induction steps as [|step steps IH]; intros st st' H Hst; simpl in H.
  - by simplify_eq.
  - apply bind_Ok in H as (st1 & Hstep & H). apply (IH _ _ H).
    by apply (exec_step_reportable _ _ _ _ Hstep).
Qed.

(** X21.  Whatever [execute_plan] returns can be shown.  For any plan and
    any client, every result the run leaves has the action, the title and the
    status a row is made of, so that once the report is built from the
    results of a run, the page is built from the report: no [KeyError] is
    left for the last step of [main]. *)
Theorem html_report_of_run
    (now : string) (manifest : dict) (plan project_id report : json)
    (results : list json) (c c' : C) :
  execute_plan client plan project_id c = Ok (results, c') →
  build_execution_report now manifest plan results project_id = Ok report →
  Forall reportable results ∧
  ∃ html, build_execution_report_html report = Ok html.
Proof.
  intros Hrun Hreport.
  assert (Forall reportable results) as Hall.
  { unfold execute_plan in Hrun. do 3 inv_bind Hrun. simplify_eq.
    eapply run_reportable; [done|constructor]. }
  split; [done|].
  unfold build_execution_report in Hreport. do 6 inv_bind Hreport.
  simplify_eq. unfold HtmlReport.build_execution_report_html. simpl.
  destruct (html_rows_reportable results "" Hall) as [rows ->]. simpl.
  by eexists.
Qed.

End Run.

Lemma html_rows_skipped (steps results : list json) :
  Forall2 (λ s r, (action ← getitem s "action";
                   title ← getitem s "title";
                   Ok (JDict [("action", action); ("title", title);
                              ("status", JStr "skipped")])) = Ok r)
          steps results →
  Forall2 skipped_of steps results ∧
  ∀ rows, for_each html_row results rows
          = Ok (rows +:+ rows_of (skipped_row container_repr <$> steps)).
Proof.
  induction 1 as [|s r steps results Hr _ [IHs IH]].
  - split; [constructor|]. intros rows. simpl. by rewrite append_empty_r.
  - do 2 inv_bind Hr. simplify_eq.
    destruct s as [| |sd]; try done. simpl in *.
    destruct (dict_lookup "action" sd) as [a|] eqn:Ha; [|done].
    destruct (dict_lookup "title" sd) as [t|] eqn:Ht; [|done].
    simplify_eq. split.
    + constructor; [|done]. unfold skipped_of. simpl. by rewrite Ha, Ht.
    + intros rows. simpl. unfold HtmlReport.html_row at 1. simpl.
      rewrite IH, append_assoc. do 2 f_equal.
      unfold skipped_row, action_is, HtmlReport.html_tr. simpl.
      rewrite Ha, Ht. simpl.
      match goal with
      | |- context [eq_str ?a "create_task"] =>
          by destruct (eq_str a "create_task")
      end.
Qed.

(** X22.  The page of a dry run.  The steps that were skipped are shown in
    the style of errors, since a row is styled as a success only if its
    status says so, and with a dash for the identifiers nobody asked for; the
    head of the page counts all the steps, none of them as succeeded and none
    as failed. *)
Theorem dry_run_page
    (now : string) (manifest : dict) (plan project_id report : json)
    (results : list json) :
  dry_run_results plan = Ok results →
  build_execution_report now manifest plan results project_id = Ok report →
  build_execution_report_html report
  = Ok (html_page
          (Planner.format container_repr
             (dict_get "project" (JStr "") manifest))
          (pretty (Z.of_nat (length (plan_steps plan)))) "0" "0"
          (rows_of (skipped_row container_repr <$> plan_steps plan))).
Proof.
  intros Hdry Hreport. unfold dry_run_results in Hdry.
  inv_bind Hdry. inv_bind Hdry. apply map_each_inv in Hdry.
  assert (plan_steps plan = x0) as ->.
  { destruct plan as [| |pd]; try done. unfold plan_steps. simpl in *.
    destruct (dict_lookup "steps" pd) as [sj|]; [|done]. simplify_eq.
    destruct x as [[| | |str]|l|dd]; simplify_eq/=; try done.
    - destruct str as [|ch str]; [done|]. simpl in Hdry.
      by inversion Hdry.
    - destruct dd as [|[k v] dd]; [done|]. simpl in Hdry.
      by inversion Hdry. }
  apply html_rows_skipped in Hdry as [Hskipped Hrows].
  unfold build_execution_report in Hreport.
  rewrite (count_where_skipped "success" _ _ ltac:(done) Hskipped),
          (count_where_skipped "error" _ _ ltac:(done) Hskipped) in Hreport.
  simpl in Hreport. do 4 inv_bind Hreport. simplify_eq.
  unfold HtmlReport.build_execution_report_html. simpl.
  rewrite Hrows. simpl. by rewrite (Forall2_length _ _ _ Hskipped).
Qed.

End HtmlFacts.

Lemma html_report_of_run_witness :
  execute_plan rejecting_second twin_plan (JStr "proj-1") ()
  = Ok (twin_results, ()) ∧
  field "status" <$> twin_results
  = [Some (JStr "success"); Some (JStr "success");
     Some (JStr "error"); Some (JStr "success")] ∧
  Forall reportable twin_results ∧
  ∃ html,
    HtmlReport.build_execution_report_html (λ _, "") twin_report = Ok html.
Proof.
  split; [reflexivity|]. split; [reflexivity|].
  apply (html_report_of_run (λ _, "") rejecting_second
           "2026-01-01T00:00:00+00:00" TWIN_MANIFEST twin_plan (JStr "proj-1")
           twin_report twin_results () ()); reflexivity.
Defined.

Lemma dry_run_page_witness :
  HtmlReport.build_execution_report_html (λ _, "") twin_dry_report
  = Ok (HtmlReport.html_page "Test Project" "4" "0" "0"
          ("<tr class=" +:+ HtmlReport.dq +:+ "error" +:+ HtmlReport.dq
           +:+ "><td>create_task</td><td>Deploy</td><td>skipped</td>"
           +:+ "<td>Task: -</td></tr>
<tr class=" +:+ HtmlReport.dq +:+ "error" +:+ HtmlReport.dq
           +:+ "><td>start_workspace</td><td>Deploy</td><td>skipped</td>"
           +:+ "<td>WS: - (-)</td></tr>
<tr class=" +:+ HtmlReport.dq +:+ "error" +:+ HtmlReport.dq
           +:+ "><td>create_task</td><td>Deploy</td><td>skipped</td>"
           +:+ "<td>Task: -</td></tr>
<tr class=" +:+ HtmlReport.dq +:+ "error" +:+ HtmlReport.dq
           +:+ "><td>start_workspace</td><td>Deploy</td><td>skipped</td>"
           +:+ "<td>WS: - (-)</td></tr>
")).
Proof.
  rewrite (dry_run_page (λ _, "") "2026-01-01T00:00:00+00:00" TWIN_MANIFEST
             twin_plan (JStr "proj-1") twin_dry_report twin_dry_results
             eq_refl eq_refl).
  reflexivity.
Defined.
